(** * Aqualyx groundwater analyst: the pollution-index engine

    A shallow embedding of the pollution calculations module
    ([utils/pollutionCalculations]) and of the per-sample map of
    [analyzeData] in the Index page, with the properties of the calculation
    and aggregation engine stated and proved on it.

    JavaScript numbers are IEEE 754 binary64 values.  They are modelled by
    [spec_float] and the operations of the Standard Library's [SpecFloat]
    at precision 53 and maximal exponent 1024: the same bit-level
    algorithms as the hardware, computable inside the logic. *)

From Stdlib Require Import ZArith Lia List Bool Ascii String.
From Stdlib Require Import Floats.SpecFloat.
From Stdlib Require Import DecimalString.
From stdpp Require Import gmap strings.
Import ListNotations.

(** ** JavaScript numbers *)

Module JS.

Definition number : Type := spec_float.

Definition prec : Z := 53.
Definition emax : Z := 1024.

Definition NaN : number := S754_nan.
Definition Infinity : number := S754_infinity false.
Definition neg_Infinity : number := S754_infinity true.
Definition pos_zero : number := S754_zero false.
Definition neg_zero : number := S754_zero true.

Definition add : number -> number -> number := SFadd prec emax.
Definition sub : number -> number -> number := SFsub prec emax.
Definition mul : number -> number -> number := SFmul prec emax.
Definition div : number -> number -> number := SFdiv prec emax.

(** [x > y], [x < y] and [x <= y]; each is false when an operand is NaN. *)
Definition gt (x y : number) : bool := SFltb y x.
Definition lt (x y : number) : bool := SFltb x y.
Definition le (x y : number) : bool := SFleb x y.

Definition isNaN (x : number) : bool :=
  match x with S754_nan => true | _ => false end.

(** The binary64 value nearest to the rational [±n/d], ties to even: the
    correctly rounded quotient of the two integers. *)
Definition nearest (neg : bool) (n d : positive) : number :=
  SFdiv prec emax (S754_finite neg n 0) (S754_finite false d 0).

(** The value of an integer-valued number such as an array length. *)
Definition of_Z (n : Z) : number := binary_normalize prec emax n 0 false.
Definition of_nat (n : nat) : number := of_Z (Z.of_nat n).

(** The value of a decimal literal of the source text: [lit n k] is the
    number denoted by the digits of [n] with the last [k] of them after the
    decimal point, so [lit 1 2] is the literal [0.01] and [lit 15 1] is
    [1.5]. *)
Definition lit (n : N) (k : nat) : number :=
  match n with
  | N0 => pos_zero
  | Npos p => nearest false p (Z.to_pos (10 ^ Z.of_nat k))
  end.

(** *** [Number.prototype.toFixed] and [Number(string)]

    The string [toFixed] returns is kept as the value it spells. *)
Inductive NumericString : Type :=
| Str_NaN
| Str_Infinity (neg : bool)
| Str_Decimal (neg : bool) (n : N) (fractionDigits : nat)
    (* sign, then the digits of [n] with [fractionDigits] of them after
       the point *)
| Str_ToString (x : number).
    (* [x >= 1e21]: the shortest decimal that reads back as [x] *)

(** Whether the finite value [m * 2^e] is at least [10^21]. *)
Definition at_least_1e21 (m : positive) (e : Z) : bool :=
  if (0 <=? e)%Z then (10 ^ 21 <=? Z.pos m * 2 ^ e)%Z
  else (10 ^ 21 * 2 ^ (- e) <=? Z.pos m)%Z.

(** The integer [n] for which [n / 10^f - m * 2^e] is closest to zero, the
    larger one when there are two. *)
Definition scaled_integer (m : positive) (e : Z) (f : nat) : Z :=
  let p := (10 ^ Z.of_nat f)%Z in
  if (0 <=? e)%Z then (Z.pos m * 2 ^ e * p)%Z
  else ((2 * Z.pos m * p + 2 ^ (- e)) / 2 ^ (1 - e))%Z.

Definition toFixed (x : number) (fractionDigits : nat) : NumericString :=
  match x with
  | S754_nan => Str_NaN
  | S754_infinity s => Str_Infinity s
  | S754_zero _ => Str_Decimal false 0 fractionDigits
  | S754_finite s m e =>
      if at_least_1e21 m e then Str_ToString x
      else Str_Decimal s (Z.to_N (scaled_integer m e fractionDigits)) fractionDigits
  end.

(** [Number] reads a decimal as the nearest binary64 value.  (An engine
    may first cut a decimal of more than 20 significant digits; [toFixed]
    with 1 or 2 digits produces such a decimal only from 1e18 on.) *)
Definition Number (s : NumericString) : number :=
  match s with
  | Str_NaN => NaN
  | Str_Infinity neg => S754_infinity neg
  | Str_Decimal neg N0 _ => S754_zero neg
  | Str_Decimal neg (Npos p) f => nearest neg p (Z.to_pos (10 ^ Z.of_nat f))
  | Str_ToString x => x
  end.

(** *** [Math.max] applied to a spread array *)
Definition max_step (highest x : number) : number :=
  if isNaN highest then NaN
  else if isNaN x then NaN
  else match x, highest with
       | S754_zero false, S754_zero true => x
       | _, _ => if gt x highest then x else highest
       end.

Definition Math_max (args : list number) : number :=
  fold_left max_step args neg_Infinity.

(** *** Strings *)
Definition upper_ascii (c : ascii) : ascii :=
  let n := nat_of_ascii c in
  if (97 <=? n)%nat && (n <=? 122)%nat then ascii_of_nat (n - 32) else c.

Fixpoint toUpperCase (s : string) : string :=
  match s with
  | EmptyString => EmptyString
  | String c rest => String (upper_ascii c) (toUpperCase rest)
  end.

Definition charAt (s : string) (i : nat) : string :=
  match String.get i s with
  | Some c => String c EmptyString
  | None => EmptyString
  end.

Definition slice (s : string) (start : nat) : string :=
  String.substring start (String.length s - start) s.

(** *** How a call ends: with a returned value or a thrown error. *)
Inductive Completion (A : Type) : Type :=
| Return (v : A)
| Throw (error : string).
Arguments Return {A} v.
Arguments Throw {A} error.

End JS.

Declare Scope js_scope.
Delimit Scope js_scope with js.
Infix "+" := JS.add : js_scope.
Infix "-" := JS.sub : js_scope.
Infix "*" := JS.mul : js_scope.
Infix "/" := JS.div : js_scope.
Infix ">?" := JS.gt (at level 70, no associativity) : js_scope.
Infix "<=?" := JS.le (at level 70, no associativity) : js_scope.

Local Open Scope string_scope.

(** ** The pollution calculations module *)

Inductive Status : Type := safe | moderate | danger.

Definition Status_eqb (a b : Status) : bool :=
  match a, b with
  | safe, safe | moderate, moderate | danger, danger => true
  | _, _ => false
  end.

Record PollutionIndices : Type := {
  hpi : JS.number;
  mi : JS.number;
  cd : JS.number;
  status : Status;
  statusLabel : string
}.

Record MetalConcentrations : Type := {
  lead : JS.number;
  cadmium : JS.number;
  arsenic : JS.number;
  chromium : JS.number
}.

(** [keyof MetalConcentrations]. *)
Inductive MetalKey : Type := Klead | Kcadmium | Karsenic | Kchromium.

Definition keyName (k : MetalKey) : string :=
  match k with
  | Klead => "lead"
  | Kcadmium => "cadmium"
  | Karsenic => "arsenic"
  | Kchromium => "chromium"
  end.

(** [metals[metal]]. *)
Definition getMetal (metals : MetalConcentrations) (metal : MetalKey) : JS.number :=
  match metal with
  | Klead => lead metals
  | Kcadmium => cadmium metals
  | Karsenic => arsenic metals
  | Kchromium => chromium metals
  end.

(** An object of type [MetalConcentrations] at run time: the values of its
    four properties, and its own keys in the order in which they were
    created.  [Object.keys(metals)] returns the keys in that order, and the
    loops of the module visit them in that order. *)
Record MetalObject : Type := {
  properties : MetalConcentrations;
  Object_keys : list MetalKey
}.

(** The object written with its properties in the order lead, cadmium,
    arsenic, chromium: the order of the interface, and of the literal that
    [analyzeData] passes to [calculatePollutionIndices].  A record of the
    four values given to a function of the module stands for this object. *)
Definition literal (metals : MetalConcentrations) : MetalObject :=
  {| properties := metals; Object_keys := [Klead; Kcadmium; Karsenic; Kchromium] |}.

Coercion literal : MetalConcentrations >-> MetalObject.

Definition STANDARDS (metal : MetalKey) : JS.number :=
  match metal with
  | Klead => JS.lit 1 2
  | Kcadmium => JS.lit 3 3
  | Karsenic => JS.lit 1 2
  | Kchromium => JS.lit 5 2
  end.

Definition WEIGHTS (metal : MetalKey) : JS.number :=
  match metal with
  | Klead => JS.lit 9 1
  | Kcadmium => JS.lit 10 1
  | Karsenic => JS.lit 10 1
  | Kchromium => JS.lit 8 1
  end.

(** The body of the [forEach] callback of [calculateHPI], as a function
    from the two accumulators before a key to the two after it; [metals]
    holds the property values the callback reads. *)
Definition calculateHPI_step (metals : MetalConcentrations)
    (acc : JS.number * JS.number) (metal : MetalKey) : JS.number * JS.number :=
  let '(weightedSum, totalWeight) := acc in
  let concentration := getMetal metals metal in
  let standard := STANDARDS metal in
  let weight := WEIGHTS metal in
  let subIndex :=
    if (concentration >? standard)%js
    then (JS.lit 100 0 * (concentration - standard) / standard)%js
    else JS.lit 0 0 in
  ((weightedSum + weight * subIndex)%js, (totalWeight + weight)%js).

Definition calculateHPI (metals : MetalObject) : JS.number :=
  let metalKeys := Object_keys metals in
  let '(weightedSum, totalWeight) :=
    fold_left (calculateHPI_step (properties metals)) metalKeys (JS.lit 0 0, JS.lit 0 0) in
  if (totalWeight >? JS.lit 0 0)%js then (weightedSum / totalWeight)%js else JS.lit 0 0.

Definition calculateMI (metals : MetalObject) : JS.number :=
  let metalKeys := Object_keys metals in
  let sum :=
    fold_left
      (fun acc metal => (acc + getMetal (properties metals) metal / STANDARDS metal)%js)
      metalKeys (JS.lit 0 0) in
  (sum / JS.of_nat (List.length metalKeys))%js.

Definition calculateCd (metals : MetalObject) : JS.number :=
  let metalKeys := Object_keys metals in
  fold_left
    (fun acc metal => (acc + getMetal (properties metals) metal / STANDARDS metal)%js)
    metalKeys (JS.lit 0 0).

Definition getPollutionStatus (hpi mi cd : JS.number) : Status * string :=
  if (hpi >? JS.lit 100 0)%js || (mi >? JS.lit 15 1)%js || (cd >? JS.lit 3 0)%js
  then (danger, "High Contamination")
  else if (hpi >? JS.lit 50 0)%js || (mi >? JS.lit 1 0)%js || (cd >? JS.lit 15 1)%js
  then (moderate, "Moderate Contamination")
  else (safe, "Safe Level").

Definition calculatePollutionIndices (metals : MetalObject) : PollutionIndices :=
  let hpi := calculateHPI metals in
  let mi := calculateMI metals in
  let cd := calculateCd metals in
  let '(status, statusLabel) := getPollutionStatus hpi mi cd in
  {| hpi := JS.Number (JS.toFixed hpi 2);
     mi := JS.Number (JS.toFixed mi 2);
     cd := JS.Number (JS.toFixed cd 2);
     status := status;
     statusLabel := statusLabel |}.

Record CriticalMetal : Type := {
  metal : string;
  ratio : JS.number;
  exceedsStandard : bool
}.

(** The body of the [forEach] callback of [getMostCriticalMetal]; the state
    is the pair of [maxRatio] and [criticalMetal]. *)
Definition getMostCriticalMetal_step (metals : MetalConcentrations)
    (acc : JS.number * string) (metal : MetalKey) : JS.number * string :=
  let '(maxRatio, criticalMetal) := acc in
  let ratio := (getMetal metals metal / STANDARDS metal)%js in
  if (ratio >? maxRatio)%js then (ratio, keyName metal) else (maxRatio, criticalMetal).

Definition getMostCriticalMetal (metals : MetalObject) : CriticalMetal :=
  let metalKeys := Object_keys metals in
  let '(maxRatio, criticalMetal) :=
    fold_left (getMostCriticalMetal_step (properties metals)) metalKeys (JS.lit 0 0, "lead") in
  {| metal := JS.toUpperCase (JS.charAt criticalMetal 0) ++ JS.slice criticalMetal 1;
     ratio := JS.Number (JS.toFixed maxRatio 2);
     exceedsStandard := (maxRatio >? JS.lit 1 0)%js |}.

Module Summary.

Record Tier : Type := { count : nat; percentage : JS.number }.

Record Distribution : Type := { safe : Tier; moderate : Tier; danger : Tier }.

Record Indices : Type := { hpi : JS.number; mi : JS.number; cd : JS.number }.

Record Statistics : Type := {
  total : nat;
  distribution : Distribution;
  averages : Indices;
  maximums : Indices
}.

End Summary.

(** The function has no [throw]; [filter], [map], [reduce] with an initial
    value, [Math.max], [toFixed] with 1 or 2 digits and [Number] do not
    throw either, so every call ends in its [return]. *)
Definition generateSummaryStats (results : list PollutionIndices)
  : JS.Completion Summary.Statistics :=
  let total := List.length results in
  let safe := List.length (List.filter (fun r => Status_eqb (status r) safe) results) in
  let moderate := List.length (List.filter (fun r => Status_eqb (status r) moderate) results) in
  let danger := List.length (List.filter (fun r => Status_eqb (status r) danger) results) in
  let avgHPI := (fold_left (fun sum r => sum + hpi r) results (JS.lit 0 0) / JS.of_nat total)%js in
  let avgMI := (fold_left (fun sum r => sum + mi r) results (JS.lit 0 0) / JS.of_nat total)%js in
  let avgCd := (fold_left (fun sum r => sum + cd r) results (JS.lit 0 0) / JS.of_nat total)%js in
  let maxHPI := JS.Math_max (List.map hpi results) in
  let maxMI := JS.Math_max (List.map mi results) in
  let maxCd := JS.Math_max (List.map cd results) in
  let pct (n : nat) :=
    JS.Number (JS.toFixed ((JS.of_nat n / JS.of_nat total) * JS.lit 100 0)%js 1) in
  JS.Return
    {| Summary.total := total;
       Summary.distribution :=
         {| Summary.safe := {| Summary.count := safe; Summary.percentage := pct safe |};
            Summary.moderate := {| Summary.count := moderate; Summary.percentage := pct moderate |};
            Summary.danger := {| Summary.count := danger; Summary.percentage := pct danger |} |};
       Summary.averages :=
         {| Summary.hpi := JS.Number (JS.toFixed avgHPI 2);
            Summary.mi := JS.Number (JS.toFixed avgMI 2);
            Summary.cd := JS.Number (JS.toFixed avgCd 2) |};
       Summary.maximums :=
         {| Summary.hpi := JS.Number (JS.toFixed maxHPI 2);
            Summary.mi := JS.Number (JS.toFixed maxMI 2);
            Summary.cd := JS.Number (JS.toFixed maxCd 2) |} |}.

(** ** Per-sample processing ([analyzeData] of the Index page) *)

(** The values a sample object holds: [SampleData] maps keys to strings and
    numbers, and a result also holds the indices record. *)
Inductive JSValue : Type :=
| VString (s : string)
| VNumber (x : JS.number)
| VIndices (indices : PollutionIndices).

(** A sample as the object it is: a finite map from property names to
    values. *)
Abbreviation SampleData := (gmap string JSValue).
Abbreviation SampleResult := (gmap string JSValue).

(** A property read where a number is used.  [SampleData] declares the four
    concentrations as numbers; a missing property reads as [undefined],
    which arithmetic and comparisons turn into NaN.  Values of another type
    are outside the declared type and read as NaN here as well. *)
Definition readNumber (sample : SampleData) (field : string) : JS.number :=
  match sample !! field with
  | Some (VNumber x) => x
  | _ => JS.NaN
  end.

Definition metalConcentrations_of (sample : SampleData) : MetalConcentrations :=
  {| lead := readNumber sample "lead";
     cadmium := readNumber sample "cadmium";
     arsenic := readNumber sample "arsenic";
     chromium := readNumber sample "chromium" |}.

(** The callback of [uploadedData.map]: the spread copies every property of
    the sample, then [indices] is set. *)
Definition analyzeSample (sample : SampleData) : SampleResult :=
  let metalConcentrations := metalConcentrations_of sample in
  let indices := calculatePollutionIndices metalConcentrations in
  <["indices" := VIndices indices]> sample.

(** The [results] array computed by [analyzeData]. *)
Definition analyzeData (uploadedData : list SampleData) : list SampleResult :=
  List.map analyzeSample uploadedData.

(** ** The formulas of the specification

    Written from the specification's sections 4.1 and 4.2, to be compared
    with the functions above.  A sum runs over the four metals in the order
    lead, cadmium, arsenic, chromium and adds to zero from the left. *)

Module Spec.

Definition metals_in_order : list MetalKey := [Klead; Kcadmium; Karsenic; Kchromium].

Definition limit (k : MetalKey) : JS.number :=
  match k with
  | Klead => JS.lit 1 2       (* 0.01 *)
  | Kcadmium => JS.lit 3 3    (* 0.003 *)
  | Karsenic => JS.lit 1 2    (* 0.01 *)
  | Kchromium => JS.lit 5 2   (* 0.05 *)
  end.

Definition weight (k : MetalKey) : JS.number :=
  match k with
  | Klead => JS.lit 9 1       (* 0.9 *)
  | Kcadmium => JS.lit 10 1   (* 1.0 *)
  | Karsenic => JS.lit 10 1   (* 1.0 *)
  | Kchromium => JS.lit 8 1   (* 0.8 *)
  end.

Definition sum (terms : list JS.number) : JS.number :=
  fold_left JS.add terms JS.pos_zero.

(** Qi = 100 * (Ci - Si) / Si when Ci exceeds Si, else 0. *)
Definition Q (c : MetalConcentrations) (k : MetalKey) : JS.number :=
  if (getMetal c k >? limit k)%js
  then (JS.lit 100 0 * (getMetal c k - limit k) / limit k)%js
  else JS.pos_zero.

(** HPI = Σ(Wi * Qi) / Σ(Wi). *)
Definition HPI (c : MetalConcentrations) : JS.number :=
  (sum (List.map (fun k => weight k * Q c k)%js metals_in_order)
   / sum (List.map weight metals_in_order))%js.

(** The exceedance ratio Ci / Si. *)
Definition exceedance (c : MetalConcentrations) (k : MetalKey) : JS.number :=
  (getMetal c k / limit k)%js.

(** Cd = Σ(Ci / Si). *)
Definition Cd (c : MetalConcentrations) : JS.number :=
  sum (List.map (exceedance c) metals_in_order).

(** MI: the unweighted mean of the n = 4 ratios. *)
Definition MI (c : MetalConcentrations) : JS.number :=
  (sum (List.map (exceedance c) metals_in_order) / JS.lit 4 0)%js.

(** round(x, 1): [x] to one decimal, a half going up. *)
Definition round1 (x : JS.number) : JS.number :=
  JS.Number (JS.toFixed x 1).

(** round(100 * count/total, 1): the product 100 * count, divided by the
    total, to one decimal. *)
Definition percentage (count total : nat) : JS.number :=
  round1 ((JS.lit 100 0 * JS.of_nat count) / JS.of_nat total)%js.

End Spec.

(** ** Predicates and inputs used in the statements *)

Definition nonnegative (metals : MetalConcentrations) : Prop :=
  forall k, JS.le JS.pos_zero (getMetal metals k) = true.

Definition at_or_below_standard (metals : MetalConcentrations) : Prop :=
  forall k, JS.le (getMetal metals k) (STANDARDS k) = true.

Definition danger_threshold_exceeded (hpi mi cd : JS.number) : Prop :=
  JS.gt hpi (JS.lit 100 0) = true \/ JS.gt mi (JS.lit 15 1) = true \/
  JS.gt cd (JS.lit 3 0) = true.

Definition moderate_threshold_exceeded (hpi mi cd : JS.number) : Prop :=
  JS.gt hpi (JS.lit 50 0) = true \/ JS.gt mi (JS.lit 1 0) = true \/
  JS.gt cd (JS.lit 15 1) = true.

(** The metal key with its first letter uppercased. *)
Definition capitalized (key : string) : string :=
  match key with
  | EmptyString => EmptyString
  | String c rest => String (JS.upper_ascii c) rest
  end.

(** What the loop of [getMostCriticalMetal] has established after the keys
    [scanned]: either no ratio was above 0, every ratio seen is a zero and
    the state is still the initial one; or the state holds the ratio and
    name of a key [k] whose ratio is above every earlier one and at least
    every later one. *)
Definition selection (metals : MetalConcentrations)
    (scanned : list MetalKey) (st : JS.number * string) : Prop :=
  (fst st = JS.pos_zero /\ snd st = "lead" /\
   forall j, In j scanned -> exists s, Spec.exceedance metals j = S754_zero s)
  \/
  (exists pre k post,
     scanned = (pre ++ k :: post)%list /\
     fst st = Spec.exceedance metals k /\ snd st = keyName k /\
     JS.lt JS.pos_zero (Spec.exceedance metals k) = true /\
     (forall j, In j pre -> JS.lt (Spec.exceedance metals j) (Spec.exceedance metals k) = true) /\
     (forall j, In j post -> JS.le (Spec.exceedance metals j) (Spec.exceedance metals k) = true)).

(** The object has the four keys of the interface, each once, in some
    order. *)
Definition has_the_four_keys (metals : MetalObject) : Prop :=
  Permutation (Object_keys metals) [Klead; Kcadmium; Karsenic; Kchromium].

(** [k] is the first of the keys [keys] with the largest ratio: its ratio
    is above the ratio of every key before it and at least the ratio of
    every key after it. *)
Definition first_largest (keys : list MetalKey) (metals : MetalConcentrations)
    (k : MetalKey) : Prop :=
  exists pre post,
    keys = (pre ++ k :: post)%list /\
    (forall j, In j pre ->
       JS.lt (Spec.exceedance metals j) (Spec.exceedance metals k) = true) /\
    (forall j, In j post ->
       JS.le (Spec.exceedance metals j) (Spec.exceedance metals k) = true).

(** What [getMostCriticalMetal] returns when the loop ends on the key [k]. *)
Definition result_for (metals : MetalConcentrations) (k : MetalKey) : CriticalMetal :=
  {| metal := capitalized (keyName k);
     ratio := JS.Number (JS.toFixed (Spec.exceedance metals k) 2);
     exceedsStandard := JS.gt (Spec.exceedance metals k) (JS.lit 1 0) |}.

(** The percentage [generateSummaryStats] stores for [count] results of
    [total]: the quotient count / total, times 100, to one decimal. *)
Definition stored_percentage (count total : nat) : JS.number :=
  JS.Number (JS.toFixed ((JS.of_nat count / JS.of_nat total) * JS.lit 100 0)%js 1).

(** The number of results of a tier. *)
Definition tier_count (t : Status) (results : list PollutionIndices) : nat :=
  List.length (List.filter (fun r => Status_eqb (status r) t) results).

Definition fails {A : Type} (c : JS.Completion A) : Prop :=
  exists error, c = JS.Throw error.

Definition sample_fields : list string :=
  ["sampleId"; "latitude"; "longitude"; "lead"; "cadmium"; "arsenic"; "chromium"].

(** A rounded result that is a zero, an infinity or a finite number of
    sign [s]. *)
Definition signed_result (s : bool) (r : JS.number) : Prop :=
  r = S754_zero s \/ r = S754_infinity s \/ exists m e, r = S754_finite s m e.

(** The input whose concentrations equal the four standards. *)
Definition at_the_standards : MetalConcentrations :=
  {| lead := JS.lit 1 2; cadmium := JS.lit 3 3; arsenic := JS.lit 1 2; chromium := JS.lit 5 2 |}.

(** The input whose concentrations are half the four standards. *)
Definition half_the_standards : MetalConcentrations :=
  {| lead := JS.lit 5 3; cadmium := JS.lit 15 4; arsenic := JS.lit 5 3; chromium := JS.lit 25 3 |}.

(** The end-to-end example of the specification. *)
Definition end_to_end_example : MetalConcentrations :=
  {| lead := JS.lit 5 2; cadmium := JS.lit 1 2; arsenic := JS.lit 2 2; chromium := JS.lit 3 2 |}.

(** The input whose concentrations are twice the four standards. *)
Definition twice_the_standards : MetalConcentrations :=
  {| lead := JS.lit 2 2; cadmium := JS.lit 6 3; arsenic := JS.lit 2 2; chromium := JS.lit 1 1 |}.

(** The same concentrations in an object written with chromium first:
    chromium 0.1, arsenic 0.02, cadmium 0.006, lead 0.02. *)
Definition twice_the_standards_chromium_first : MetalObject :=
  {| properties := twice_the_standards;
     Object_keys := [Kchromium; Karsenic; Kcadmium; Klead] |}.

(** Four negative concentrations. *)
Definition below_zero : MetalConcentrations :=
  {| lead := JS.sub JS.pos_zero (JS.lit 2 2);
     cadmium := JS.sub JS.pos_zero (JS.lit 3 3);
     arsenic := JS.sub JS.pos_zero (JS.lit 2 2);
     chromium := JS.sub JS.pos_zero (JS.lit 1 1) |}.

(** A collection of 80 results, 23 of them safe and 57 danger. *)
Definition twenty_three_of_eighty : list PollutionIndices :=
  (List.repeat
     (calculatePollutionIndices
        {| lead := JS.lit 0 0; cadmium := JS.lit 0 0;
           arsenic := JS.lit 0 0; chromium := JS.lit 0 0 |}) 23
   ++ List.repeat (calculatePollutionIndices end_to_end_example) 57)%list.

(** One safe, one moderate and one danger result. *)
Definition one_of_each : list PollutionIndices :=
  [ calculatePollutionIndices
      {| lead := JS.lit 0 0; cadmium := JS.lit 0 0; arsenic := JS.lit 0 0; chromium := JS.lit 0 0 |};
    calculatePollutionIndices half_the_standards;
    calculatePollutionIndices end_to_end_example ].

(** A sample with lead at 0.03004 mg/L and no other metal: Cd is a little
    above 3 and is stored as 3. *)
Definition lead_just_above_three : MetalConcentrations :=
  {| lead := JS.lit 3004 5; cadmium := JS.lit 0 0; arsenic := JS.lit 0 0; chromium := JS.lit 0 0 |}.

(** A sample as [validateData] builds it. *)
Definition sample_S1 : SampleData :=
  <["sampleId" := VString "S1"]>
    (<["latitude" := VNumber (JS.lit 285 1)]>
       (<["longitude" := VNumber (JS.lit 772 1)]>
          (<["lead" := VNumber (JS.lit 5 2)]>
             (<["cadmium" := VNumber (JS.lit 1 2)]>
                (<["arsenic" := VNumber (JS.lit 2 2)]>
                   (<["chromium" := VNumber (JS.lit 3 2)]> ∅)))))).

(** ** Further predicates used in the statements *)

(** The label that goes with a status. *)
Definition label_of (s : Status) : string :=
  match s with
  | safe => "Safe Level"
  | moderate => "Moderate Contamination"
  | danger => "High Contamination"
  end.

(** The tiers in increasing order of severity. *)
Definition severity (s : Status) : nat :=
  match s with
  | safe => 0
  | moderate => 1
  | danger => 2
  end.

(** What the loop of [getMostCriticalMetal] keeps on every input, NaN and
    negative concentrations included: the running maximum is a number at
    least 0, no ratio seen is above it, and it is either the initial 0 with
    the initial name or the ratio of a key seen, with that key's name. *)
Definition scan_state (metals : MetalConcentrations)
    (scanned : list MetalKey) (st : JS.number * string) : Prop :=
  JS.le JS.pos_zero (fst st) = true /\
  (forall j, In j scanned -> JS.gt (Spec.exceedance metals j) (fst st) = false) /\
  ((fst st = JS.pos_zero /\ snd st = "lead") \/
   (exists k, In k scanned /\ fst st = Spec.exceedance metals k /\ snd st = keyName k)).

(** A stored maximum: the 2-decimal rounding of the [field] of a result
    whose [field] is at least that of every result. *)
Definition rounded_maximum (field : PollutionIndices -> JS.number)
    (results : list PollutionIndices) (stored : JS.number) : Prop :=
  exists r, In r results /\
    stored = JS.Number (JS.toFixed (field r) 2) /\
    forall r', In r' results -> JS.le (field r') (field r) = true.

(** No index of a result is NaN. *)
Definition indices_are_numbers (r : PollutionIndices) : Prop :=
  JS.isNaN (hpi r) = false /\ JS.isNaN (mi r) = false /\ JS.isNaN (cd r) = false.

(** [highest] is a member of [seen], not NaN, and at least every member. *)
Definition greatest_of (seen : list JS.number) (highest : JS.number) : Prop :=
  JS.isNaN highest = false /\ In highest seen /\
  forall x, In x seen -> JS.le x highest = true.

(** The entry of a distribution that belongs to a tier. *)
Definition tier_of (t : Status) (d : Summary.Distribution) : Summary.Tier :=
  match t with
  | safe => Summary.safe d
  | moderate => Summary.moderate d
  | danger => Summary.danger d
  end.

(** ** The upload component: [parseCSV] and [validateData] *)

(** How often a character occurs in a string. *)
Fixpoint count_char (c : ascii) (s : string) : nat :=
  match s with
  | EmptyString => 0
  | String c' rest => (if Ascii.eqb c' c then 1 else 0) + count_char c rest
  end.

(** White space of ASCII: tab, line feed, vertical tab, form feed, carriage
    return and space. *)
Definition ascii_space (c : ascii) : bool :=
  let n := nat_of_ascii c in ((9 <=? n)%nat && (n <=? 13)%nat) || (n =? 32)%nat.

Fixpoint trimStart_ascii (s : string) : string :=
  match s with
  | EmptyString => EmptyString
  | String c rest => if ascii_space c then trimStart_ascii rest else s
  end.

Fixpoint trimEnd_ascii (s : string) : string :=
  match s with
  | EmptyString => EmptyString
  | String c rest =>
      match trimEnd_ascii rest with
      | EmptyString => if ascii_space c then EmptyString else String c EmptyString
      | kept => String c kept
      end
  end.

(** [trim] on text whose only white space is that of ASCII; it stands for
    the parameter [trim] in the examples. *)
Definition trim_ascii (s : string) : string := trimEnd_ascii (trimStart_ascii s).

Module Upload.

(** [s.split(sep)] for a separator of one character: the pieces between
    the separators, one more than there are separators. *)
Fixpoint split (sep : ascii) (s : string) : list string :=
  match s with
  | EmptyString => [EmptyString]
  | String c rest =>
      if Ascii.eqb c sep then EmptyString :: split sep rest
      else match split sep rest with
           | piece :: pieces => String c piece :: pieces
           | [] => [String c EmptyString]
           end
  end.

Definition quote : ascii := ascii_of_nat 34.
Definition comma : ascii := ascii_of_nat 44.
Definition newline : ascii := ascii_of_nat 10.

(** The string with every double-quote character removed, as the
    [replace] with the global pattern for that character does. *)
Fixpoint removeQuotes (s : string) : string :=
  match s with
  | EmptyString => EmptyString
  | String c rest =>
      if Ascii.eqb c quote then removeQuotes rest else String c (removeQuotes rest)
  end.

(** [row[header] = value] on a plain object: an own property is created or
    overwritten, except for the key [__proto__], where assigning a string
    does nothing. *)
Definition setProperty (row : gmap string string) (header value : string)
  : gmap string string :=
  if String.eqb header "__proto__" then row else <[header := value]> row.

(** [array[index] || ''] for an array of strings. *)
Definition cellAt (values : list string) (index : nat) : string :=
  List.nth index values EmptyString.

(** [forEach] with its index argument, counting from [index]. *)
Fixpoint forEach_from {A S : Type} (f : S -> A -> nat -> S)
    (index : nat) (items : list A) (state : S) : S :=
  match items with
  | [] => state
  | item :: rest => forEach_from f (Datatypes.S index) rest (f state item index)
  end.

Section ParseCSV.

(** [String.prototype.trim], which removes the white space and line
    terminators of Unicode at both ends, is a parameter. *)
Variable trim : string -> string.

(** The cells of a line: split at the commas, each piece trimmed and
    stripped of its double quotes. *)
Definition cells (line : string) : list string :=
  List.map (fun v => removeQuotes (trim v)) (split comma line).

Definition parseRow (headers : list string) (line : string) : gmap string string :=
  let values := cells line in
  forEach_from (fun row header index => setProperty row header (cellAt values index))
    0 headers ∅.

Definition nonBlankLines (text : string) : list string :=
  List.filter (fun line => negb (String.eqb (trim line) EmptyString)) (split newline text).

Definition parseCSV (text : string) : list (gmap string string) :=
  let lines := nonBlankLines text in
  if (List.length lines <? 2)%nat then []
  else
    let headers := cells (List.hd EmptyString lines) in
    List.map (parseRow headers) (List.tl lines).

End ParseCSV.

Record ValidationResult : Type := {
  valid : bool;
  errors : list string;
  samples : list SampleData
}.

(** [Math.abs]. *)
Definition Math_abs (x : JS.number) : JS.number := SFabs x.

(** The range checks made on a built sample, as the messages they push, in
    order. *)
Definition rangeErrors (sample : SampleData) : list string :=
  ((if JS.gt (Math_abs (readNumber sample "latitude")) (JS.lit 90 0)
    then ["Invalid latitude"] else []) ++
   (if JS.gt (Math_abs (readNumber sample "longitude")) (JS.lit 180 0)
    then ["Invalid longitude"] else []) ++
   (if JS.lt (readNumber sample "lead") (JS.lit 0 0)
       || JS.lt (readNumber sample "cadmium") (JS.lit 0 0)
       || JS.lt (readNumber sample "arsenic") (JS.lit 0 0)
       || JS.lt (readNumber sample "chromium") (JS.lit 0 0)
    then ["Heavy metal concentrations cannot be negative"] else []))%list.

(** The decimal digits of a row number. *)
Definition decimal (n : nat) : string := NilEmpty.string_of_uint (Nat.to_uint n).

Section ValidateData.

(** A row is what [parseCSV] produced.  Two steps that work on its keys
    with [toLowerCase], a regular expression and [parseFloat] are
    parameters: the messages the required-fields loop pushes for a row,
    and the sample object built from a row and its index. *)
Variable Row : Type.
Variable requiredFieldErrors : Row -> list string.
Variable buildSample : Row -> nat -> SampleData.

(** The body of [data.forEach]: the sample pushed, if any, and the final
    [rowErrors]. *)
Definition validateRow (row : Row) (index : nat) : option SampleData * list string :=
  let rowErrors := requiredFieldErrors row in
  if (List.length rowErrors =? 0)%nat then
    let sample := buildSample row index in
    let rowErrors := (rowErrors ++ rangeErrors sample)%list in
    ((if (List.length rowErrors =? 0)%nat then Some sample else None), rowErrors)
  else (None, rowErrors).

Definition rowMessage (index : nat) (rowErrors : list string) : string :=
  "Row " ++ decimal (index + 1) ++ ": " ++ String.concat ", " rowErrors.

Definition validateData_step (state : list string * list SampleData)
    (row : Row) (index : nat) : list string * list SampleData :=
  let '(errors, validSamples) := state in
  let '(pushed, rowErrors) := validateRow row index in
  let validSamples :=
    match pushed with
    | Some sample => (validSamples ++ [sample])%list
    | None => validSamples
    end in
  let errors :=
    if (0 <? List.length rowErrors)%nat
    then (errors ++ [rowMessage index rowErrors])%list else errors in
  (errors, validSamples).

Definition validateData (data : list Row) : ValidationResult :=
  if (List.length data =? 0)%nat then
    {| valid := false; errors := ["File is empty or invalid"]; samples := [] |}
  else
    let '(errors, validSamples) := forEach_from validateData_step 0 data ([], []) in
    {| valid := (List.length errors =? 0)%nat; errors := errors; samples := validSamples |}.

End ValidateData.

End Upload.

(** ** The components that read the results *)

(** The interface [SampleResult] that the dashboard and the export module
    declare: a record of eight properties. *)
Module Result.

Record t : Type := {
  sampleId : string;
  latitude : JS.number;
  longitude : JS.number;
  lead : JS.number;
  cadmium : JS.number;
  arsenic : JS.number;
  chromium : JS.number;
  indices : PollutionIndices
}.

(** The four concentrations of a result. *)
Definition concentrations (r : t) : MetalConcentrations :=
  Build_MetalConcentrations (lead r) (cadmium r) (arsenic r) (chromium r).

End Result.

(** *** The data [StatsDashboard] computes before it renders *)

Module Dashboard.

Record PieSlice : Type := { name : string; value : nat; color : string }.

Record Bar : Type := { sampleId : string; HPI : JS.number; MI : JS.number; Cd : JS.number }.

Record MetalEntry : Type := {
  metal : string;
  average : JS.number;
  exceeding : nat;
  standard : JS.number
}.

Record Data : Type := {
  stats : Summary.Statistics;
  pieData : list PieSlice;
  barData : list Bar;
  metalDistributionData : list MetalEntry
}.

Definition COLORS (s : Status) : string :=
  match s with
  | safe => "hsl(var(--safe))"
  | moderate => "hsl(var(--moderate))"
  | danger => "hsl(var(--danger))"
  end.

Definition metalEntry (name : string) (field : Result.t -> JS.number)
    (limit : JS.number) (results : list Result.t) : MetalEntry :=
  {| metal := name;
     average := (fold_left (fun sum r => sum + field r) results (JS.lit 0 0)
                 / JS.of_nat (List.length results))%js;
     exceeding := List.length (List.filter (fun r => JS.gt (field r) limit) results);
     standard := limit |}.

(** [None] is the [null] returned for no results; otherwise the call of
    [generateSummaryStats] decides how the computation ends. *)
Definition StatsDashboard (results : list Result.t) : option (JS.Completion Data) :=
  if (List.length results =? 0)%nat then None
  else Some
    match generateSummaryStats (List.map Result.indices results) with
    | JS.Throw error => JS.Throw error
    | JS.Return stats =>
        let pieData :=
          List.filter (fun item => JS.gt (JS.of_nat (value item)) (JS.lit 0 0))
            [ {| name := "Safe";
                 value := Summary.count (Summary.safe (Summary.distribution stats));
                 color := COLORS safe |};
              {| name := "Moderate";
                 value := Summary.count (Summary.moderate (Summary.distribution stats));
                 color := COLORS moderate |};
              {| name := "High Risk";
                 value := Summary.count (Summary.danger (Summary.distribution stats));
                 color := COLORS danger |} ] in
        let barData :=
          List.map
            (fun result =>
               {| sampleId :=
                    if (8 <? String.length (Result.sampleId result))%nat
                    then String.substring 0 8 (Result.sampleId result) ++ "..."
                    else Result.sampleId result;
                  HPI := hpi (Result.indices result);
                  MI := mi (Result.indices result);
                  Cd := cd (Result.indices result) |})
            (List.firstn 10 results) in
        let metalDistributionData :=
          [ metalEntry "Lead" Result.lead (JS.lit 1 2) results;
            metalEntry "Cadmium" Result.cadmium (JS.lit 3 3) results;
            metalEntry "Arsenic" Result.arsenic (JS.lit 1 2) results;
            metalEntry "Chromium" Result.chromium (JS.lit 5 2) results ] in
        JS.Return {| stats := stats; pieData := pieData; barData := barData;
                     metalDistributionData := metalDistributionData |}
    end.

End Dashboard.

(** *** The figures [generateReportHTML] computes for its template *)

Module Report.

Record Figures : Type := {
  totalSamples : nat;
  safeSamples : nat;
  moderateSamples : nat;
  dangerSamples : nat;
  avgHPI : JS.NumericString;
  avgMI : JS.NumericString;
  avgCd : JS.NumericString;
  safePercent : JS.NumericString;
  moderatePercent : JS.NumericString;
  dangerPercent : JS.NumericString;
  criticalSamples : list Result.t
}.

Section Figures.

(** [Array.prototype.sort] with a comparison function is a parameter: it
    returns the elements it was given in some order. *)
Variable sort : (Result.t -> Result.t -> JS.number) -> list Result.t -> list Result.t.

Definition figures (results : list Result.t) : Figures :=
  let totalSamples := List.length results in
  let tier (t : Status) :=
    List.length (List.filter (fun r => Status_eqb (status (Result.indices r)) t) results) in
  let safeSamples := tier safe in
  let moderateSamples := tier moderate in
  let dangerSamples := tier danger in
  let avg (field : PollutionIndices -> JS.number) :=
    JS.toFixed
      (fold_left (fun sum r => sum + field (Result.indices r)) results (JS.lit 0 0)
       / JS.of_nat totalSamples)%js 2 in
  let percent (n : nat) :=
    JS.toFixed ((JS.of_nat n / JS.of_nat totalSamples) * JS.lit 100 0)%js 1 in
  let criticalSamples :=
    List.firstn 5
      (sort (fun a b => hpi (Result.indices b) - hpi (Result.indices a))%js
         (List.filter (fun r => Status_eqb (status (Result.indices r)) danger) results)) in
  {| totalSamples := totalSamples;
     safeSamples := safeSamples;
     moderateSamples := moderateSamples;
     dangerSamples := dangerSamples;
     avgHPI := avg hpi;
     avgMI := avg mi;
     avgCd := avg cd;
     safePercent := percent safeSamples;
     moderatePercent := percent moderateSamples;
     dangerPercent := percent dangerSamples;
     criticalSamples := criticalSamples |}.

End Figures.

End Report.

(** ** The constants of the source as binary64 values *)

Section Literals.

(** [0.01] is the double with bits 0x3F847AE147AE147B. *)
Example literal_0_01 :
  JS.lit 1 2 = S754_finite false 0x147AE147AE147B (-59).
Proof. vm_compute. reflexivity. Qed.

Example literal_100 : JS.lit 100 0 = S754_finite false (2 ^ 46 * 100) (-46).
Proof. vm_compute. reflexivity. Qed.

Lemma STANDARDS_valid (k : MetalKey) :
  valid_binary JS.prec JS.emax (STANDARDS k) = true.
Proof. destruct k; vm_compute; reflexivity. Qed.

Lemma WEIGHTS_valid (k : MetalKey) :
  valid_binary JS.prec JS.emax (WEIGHTS k) = true.
Proof. destruct k; vm_compute; reflexivity. Qed.

(** [toFixed] rounds the exact value of the double: 1.005 is stored a
    little below 1.005 and is printed as 1.00, while 1.5 to no decimals is
    a tie and goes up. *)
Example toFixed_rounds_the_double :
  JS.toFixed (JS.lit 1005 3) 2 = JS.Str_Decimal false 100 2 /\
  JS.toFixed (JS.lit 15 1) 0 = JS.Str_Decimal false 2 0 /\
  JS.Number (JS.toFixed (JS.lit 3004 3) 2) = JS.lit 3 0.
Proof. repeat split; vm_compute; reflexivity. Qed.

End Literals.

(** ** The order of numbers

    [SFcompare] is the comparison behind [>], [<] and [<=].  On values
    that are not NaN it is a total preorder in which the two zeros are
    equal. *)

Section NumberOrder.

Local Open Scope Z_scope.

Ltac cmp_cases :=
  repeat match goal with
  | |- context [Pos.compare_cont Eq ?a ?b] =>
      change (Pos.compare_cont Eq a b) with (Pos.compare a b)
  | H : context [Pos.compare_cont Eq ?a ?b] |- _ =>
      change (Pos.compare_cont Eq a b) with (Pos.compare a b) in H
  end;
  repeat match goal with
  | H : context [Z.compare ?a ?b] |- _ =>
      destruct (Z.compare_spec a b); simpl in H
  | H : context [Pos.compare ?a ?b] |- _ =>
      destruct (Pos.compare_spec a b); simpl in H
  | |- context [Z.compare ?a ?b] =>
      destruct (Z.compare_spec a b); simpl
  | |- context [Pos.compare ?a ?b] =>
      destruct (Pos.compare_spec a b); simpl
  end;
  subst; try discriminate; try reflexivity; try lia.

Lemma SFcompare_antisym (x y : JS.number) (c : comparison) :
  SFcompare x y = Some c -> SFcompare y x = Some (CompOpp c).
Proof.
  destruct x as [sx|sx| |sx mx ex], y as [sy|sy| |sy my ey]; simpl;
    try discriminate;
    try (destruct sx); try (destruct sy);
    intros H; injection H as <-; try reflexivity; cmp_cases.
Qed.

Lemma SFcompare_trans_Lt (x y z : JS.number) :
  SFcompare x y = Some Lt -> SFcompare y z = Some Lt -> SFcompare x z = Some Lt.
Proof.
  destruct x as [sx|sx| |sx mx ex], y as [sy|sy| |sy my ey],
    z as [sz|sz| |sz mz ez]; simpl;
    try discriminate;
    try (destruct sx); try (destruct sy); try (destruct sz);
    try discriminate; try reflexivity;
    intros H1 H2; injection H1 as H1; injection H2 as H2; f_equal; cmp_cases.
Qed.

Lemma SFcompare_Eq_l (x y z : JS.number) :
  SFcompare x y = Some Eq -> SFcompare x z = SFcompare y z.
Proof.
  destruct x as [sx|sx| |sx mx ex], y as [sy|sy| |sy my ey],
    z as [sz|sz| |sz mz ez]; simpl;
    try discriminate;
    try (destruct sx); try (destruct sy); try (destruct sz);
    try discriminate; try reflexivity;
    intros H1; injection H1 as H1; f_equal; cmp_cases.
Qed.

Lemma SFcompare_Eq_r (x y z : JS.number) :
  SFcompare y z = Some Eq -> SFcompare x y = SFcompare x z.
Proof.
  destruct x as [sx|sx| |sx mx ex], y as [sy|sy| |sy my ey],
    z as [sz|sz| |sz mz ez]; simpl;
    try discriminate;
    try (destruct sx); try (destruct sy); try (destruct sz);
    try discriminate; try reflexivity;
    intros H1; injection H1 as H1; f_equal; cmp_cases.
Qed.

Lemma SFcompare_defined (x y : JS.number) :
  JS.isNaN x = false -> JS.isNaN y = false -> exists c, SFcompare x y = Some c.
Proof.
  destruct x, y; simpl; try discriminate; eauto.
Qed.

End NumberOrder.

Section NumberOrderFacts.

Lemma js_le_not_gt (x y : JS.number) : JS.le x y = true -> JS.gt x y = false.
Proof.
  unfold JS.le, JS.gt, SFleb, SFltb.
  destruct (SFcompare x y) as [c|] eqn:E; [|discriminate].
  rewrite (SFcompare_antisym _ _ _ E). destruct c; simpl; congruence.
Qed.

Lemma js_not_gt_le (x y : JS.number) :
  JS.isNaN x = false -> JS.isNaN y = false -> JS.gt x y = false -> JS.le x y = true.
Proof.
  intros Hx Hy. unfold JS.le, JS.gt, SFleb, SFltb.
  destruct (SFcompare_defined x y Hx Hy) as [c E]. rewrite E.
  rewrite (SFcompare_antisym _ _ _ E). destruct c; simpl; congruence.
Qed.

Lemma js_gt_lt (x y : JS.number) : JS.gt x y = JS.lt y x.
Proof. reflexivity. Qed.

Lemma js_lt_compare (x y : JS.number) : JS.lt x y = true <-> SFcompare x y = Some Lt.
Proof.
  unfold JS.lt, SFltb. destruct (SFcompare x y) as [[]|]; split; congruence.
Qed.

Lemma js_le_compare (x y : JS.number) :
  JS.le x y = true <-> SFcompare x y = Some Lt \/ SFcompare x y = Some Eq.
Proof.
  unfold JS.le, SFleb. destruct (SFcompare x y) as [[]|]; split; intros H;
    try congruence; try tauto; destruct H; congruence.
Qed.

Lemma js_lt_trans (x y z : JS.number) :
  JS.lt x y = true -> JS.lt y z = true -> JS.lt x z = true.
Proof.
  rewrite !js_lt_compare. apply SFcompare_trans_Lt.
Qed.

Lemma js_le_lt_trans (x y z : JS.number) :
  JS.le x y = true -> JS.lt y z = true -> JS.lt x z = true.
Proof.
  rewrite js_le_compare, !js_lt_compare. intros [H|H] Hyz.
  - eapply SFcompare_trans_Lt; eassumption.
  - rewrite (SFcompare_Eq_l _ _ _ H). exact Hyz.
Qed.

Lemma js_lt_le_trans (x y z : JS.number) :
  JS.lt x y = true -> JS.le y z = true -> JS.lt x z = true.
Proof.
  rewrite js_le_compare, !js_lt_compare. intros Hxy [H|H].
  - eapply SFcompare_trans_Lt; eassumption.
  - rewrite <- (SFcompare_Eq_r _ _ _ H). exact Hxy.
Qed.

Lemma js_lt_le (x y : JS.number) : JS.lt x y = true -> JS.le x y = true.
Proof. rewrite js_lt_compare, js_le_compare. tauto. Qed.

Lemma js_le_isNaN_r (x y : JS.number) : JS.le x y = true -> JS.isNaN y = false.
Proof.
  destruct y; try reflexivity. unfold JS.le, SFleb. destruct x; simpl; discriminate.
Qed.

Lemma js_lt_isNaN_r (x y : JS.number) : JS.lt x y = true -> JS.isNaN y = false.
Proof.
  destruct y; try reflexivity. unfold JS.lt, SFltb. destruct x; simpl; discriminate.
Qed.

(** A number that is at least [0] and not above it is one of the zeros. *)
Lemma js_le_refl (x : JS.number) : JS.isNaN x = false -> JS.le x x = true.
Proof.
  intros Hx. destruct (SFcompare_defined x x Hx Hx) as [c E].
  pose proof (SFcompare_antisym _ _ _ E) as E'. rewrite E in E'.
  apply js_le_compare. destruct c; simpl in E'; try discriminate E'. right. exact E.
Qed.

Lemma js_le_zero_not_gt (x : JS.number) :
  JS.le JS.pos_zero x = true -> JS.gt x JS.pos_zero = false ->
  exists s, x = S754_zero s.
Proof.
  destruct x as [s|s| |s m e]; simpl; try discriminate; eauto;
    destruct s; discriminate.
Qed.

End NumberOrderFacts.

(** ** Signs of rounded results

    The rounding step of [SpecFloat] keeps a non-negative mantissa
    non-negative, so a quotient of two finite numbers is a zero, a finite
    number or an infinity carrying the exclusive-or of the operands' signs,
    and never NaN. *)

Section Rounding.

Local Open Scope Z_scope.

Lemma shr_1_nonneg (mrs : shr_record) : 0 <= shr_m mrs -> 0 <= shr_m (shr_1 mrs).
Proof.
  destruct mrs as [m r s]; simpl. destruct m as [|p|p]; simpl; [lia| |lia].
  destruct p; simpl; lia.
Qed.

Lemma iter_shr_1_nonneg (p : positive) :
  forall mrs, 0 <= shr_m mrs -> 0 <= shr_m (SpecFloat.iter_pos shr_1 p mrs).
Proof.
  induction p as [p IH|p IH|]; intros mrs H; simpl.
  - apply IH, IH, shr_1_nonneg, H.
  - apply IH, IH, H.
  - apply shr_1_nonneg, H.
Qed.

Lemma shr_nonneg (mrs : shr_record) (e n : Z) :
  0 <= shr_m mrs -> 0 <= shr_m (fst (shr mrs e n)).
Proof.
  intros H. unfold shr. destruct n; simpl; auto using iter_shr_1_nonneg.
Qed.

Lemma shr_record_of_loc_m (m : Z) (l : location) : shr_m (shr_record_of_loc m l) = m.
Proof. destruct l as [|[]]; reflexivity. Qed.

Lemma shr_fexp_nonneg (m e : Z) (l : location) :
  0 <= m -> 0 <= shr_m (fst (shr_fexp JS.prec JS.emax m e l)).
Proof.
  intros H. unfold shr_fexp. apply shr_nonneg. rewrite shr_record_of_loc_m. exact H.
Qed.

Lemma round_nearest_even_nonneg (m : Z) (l : location) :
  0 <= m -> 0 <= round_nearest_even m l.
Proof.
  intros H. unfold round_nearest_even. destruct l as [|[]]; try lia.
  destruct (Z.even m); lia.
Qed.

Lemma binary_round_aux_signed (s : bool) (m e : Z) (l : location) :
  0 <= m -> signed_result s (binary_round_aux JS.prec JS.emax s m e l).
Proof.
  intros H. unfold binary_round_aux.
  pose proof (shr_fexp_nonneg m e l H) as H1.
  destruct (shr_fexp JS.prec JS.emax m e l) as [mrs' e']; simpl in H1.
  pose proof (shr_fexp_nonneg _ e' loc_Exact
                (round_nearest_even_nonneg _ (loc_of_shr_record mrs') H1)) as H2.
  destruct (shr_fexp JS.prec JS.emax
              (round_nearest_even (shr_m mrs') (loc_of_shr_record mrs')) e' loc_Exact)
    as [mrs'' e'']; simpl in H2.
  unfold signed_result.
  destruct (shr_m mrs'') as [|p|p]; [auto| |lia].
  destruct (e'' <=? JS.emax - JS.prec); eauto.
Qed.

Lemma SFdiv_core_binary_nonneg (m1 m2 : positive) (e1 e2 : Z) :
  0 <= fst (fst (SFdiv_core_binary JS.prec JS.emax (Z.pos m1) e1 (Z.pos m2) e2)).
Proof.
  unfold SFdiv_core_binary.
  set (s := e1 - e2 - _).
  set (m' := match s with Z.pos _ => Z.shiftl (Z.pos m1) s | 0 => Z.pos m1 | Z.neg _ => 0 end).
  assert (Hm' : 0 <= m').
  { subst m'. destruct s; try lia. apply Z.shiftl_nonneg. lia. }
  pose proof (Z_div_mod m' (Z.pos m2) eq_refl) as Hdiv.
  destruct (Z.div_eucl m' (Z.pos m2)) as [q r]; simpl.
  destruct Hdiv as [Heq Hr]. nia.
Qed.

Lemma js_div_finite_signed (sx sy : bool) (mx my : positive) (ex ey : Z) :
  signed_result (xorb sx sy)
    (JS.div (S754_finite sx mx ex) (S754_finite sy my ey)).
Proof.
  unfold JS.div, SFdiv.
  pose proof (SFdiv_core_binary_nonneg mx my ex ey) as H.
  destruct (SFdiv_core_binary JS.prec JS.emax (Z.pos mx) ex (Z.pos my) ey) as [[mz ez] lz].
  simpl in H. apply binary_round_aux_signed, H.
Qed.

(** Dividing a number that is at least [0] by a positive finite number
    gives a number that is at least [0]. *)
Lemma js_div_nonneg (x : JS.number) (my : positive) (ey : Z) :
  JS.le JS.pos_zero x = true ->
  JS.le JS.pos_zero (JS.div x (S754_finite false my ey)) = true.
Proof.
  destruct x as [s|s| |s m e]; intros Hx.
  - destruct s; reflexivity.
  - destruct s; [discriminate Hx|reflexivity].
  - discriminate Hx.
  - destruct s; [discriminate Hx|].
    destruct (js_div_finite_signed false false m my e ey) as [H|[H|(m' & e' & H)]];
      rewrite H; reflexivity.
Qed.

End Rounding.

(** ** The classifier *)

Section Classifier.

Lemma orb3_true (a b c : bool) :
  a || b || c = true <-> a = true \/ b = true \/ c = true.
Proof. destruct a, b, c; simpl; intuition congruence. Qed.

Lemma getPollutionStatus_danger (hpi mi cd : JS.number) :
  danger_threshold_exceeded hpi mi cd ->
  getPollutionStatus hpi mi cd = (danger, "High Contamination").
Proof.
  intros H. apply orb3_true in H. unfold getPollutionStatus. rewrite H. reflexivity.
Qed.

Lemma not_true_false (b : bool) (P : Prop) : (b = true <-> P) -> ~ P -> b = false.
Proof. destruct b; [intros [H _] HP; exfalso; auto | reflexivity]. Qed.

Lemma getPollutionStatus_moderate (hpi mi cd : JS.number) :
  ~ danger_threshold_exceeded hpi mi cd ->
  moderate_threshold_exceeded hpi mi cd ->
  getPollutionStatus hpi mi cd = (moderate, "Moderate Contamination").
Proof.
  intros HD HM. apply orb3_true in HM.
  apply (not_true_false _ _ (orb3_true _ _ _)) in HD.
  unfold getPollutionStatus. rewrite HD, HM. reflexivity.
Qed.

Lemma getPollutionStatus_safe (hpi mi cd : JS.number) :
  ~ danger_threshold_exceeded hpi mi cd ->
  ~ moderate_threshold_exceeded hpi mi cd ->
  getPollutionStatus hpi mi cd = (safe, "Safe Level").
Proof.
  intros HD HM.
  apply (not_true_false _ _ (orb3_true _ _ _)) in HD.
  apply (not_true_false _ _ (orb3_true _ _ _)) in HM.
  unfold getPollutionStatus. rewrite HD, HM. reflexivity.
Qed.

Lemma danger_threshold_dec (hpi mi cd : JS.number) :
  danger_threshold_exceeded hpi mi cd \/ ~ danger_threshold_exceeded hpi mi cd.
Proof.
  unfold danger_threshold_exceeded.
  destruct (JS.gt hpi _), (JS.gt mi _), (JS.gt cd _); intuition congruence.
Qed.

Lemma moderate_threshold_dec (hpi mi cd : JS.number) :
  moderate_threshold_exceeded hpi mi cd \/ ~ moderate_threshold_exceeded hpi mi cd.
Proof.
  unfold moderate_threshold_exceeded.
  destruct (JS.gt hpi _), (JS.gt mi _), (JS.gt cd _); intuition congruence.
Qed.

End Classifier.

(** C4.  The classifier answers danger with label "High Contamination"
    exactly when hpi > 100 or mi > 1.5 or cd > 3; otherwise moderate with
    label "Moderate Contamination" exactly when hpi > 50 or mi > 1 or
    cd > 1.5; otherwise safe with label "Safe Level".  The comparisons are
    strict: the six threshold values themselves fall into the lower tier,
    hpi = 100.00 with mi <= 1.5 and cd <= 3 is moderate, and hpi = 100.01 is
    danger. *)
Theorem getPollutionStatus_tiers (hpi mi cd : JS.number) :
  (getPollutionStatus hpi mi cd = (danger, "High Contamination") <->
     danger_threshold_exceeded hpi mi cd) /\
  (getPollutionStatus hpi mi cd = (moderate, "Moderate Contamination") <->
     ~ danger_threshold_exceeded hpi mi cd /\ moderate_threshold_exceeded hpi mi cd) /\
  (getPollutionStatus hpi mi cd = (safe, "Safe Level") <->
     ~ danger_threshold_exceeded hpi mi cd /\ ~ moderate_threshold_exceeded hpi mi cd) /\
  (JS.le mi (JS.lit 15 1) = true -> JS.le cd (JS.lit 3 0) = true ->
     getPollutionStatus (JS.lit 10000 2) mi cd = (moderate, "Moderate Contamination")) /\
  getPollutionStatus (JS.lit 10001 2) mi cd = (danger, "High Contamination") /\
  getPollutionStatus (JS.lit 100 0) (JS.lit 15 1) (JS.lit 3 0)
    = (moderate, "Moderate Contamination") /\
  getPollutionStatus (JS.lit 50 0) (JS.lit 1 0) (JS.lit 15 1) = (safe, "Safe Level").
Proof.
  split; [|split; [|split; [|split; [|split; [|split]]]]].
  - split; [|apply getPollutionStatus_danger].
    intros H. destruct (danger_threshold_dec hpi mi cd) as [HD|HD]; [exact HD|].
    destruct (moderate_threshold_dec hpi mi cd) as [HM|HM].
    + rewrite getPollutionStatus_moderate in H by assumption. discriminate H.
    + rewrite getPollutionStatus_safe in H by assumption. discriminate H.
  - split; [|intros [HD HM]; now apply getPollutionStatus_moderate].
    intros H. destruct (danger_threshold_dec hpi mi cd) as [HD|HD].
    + rewrite getPollutionStatus_danger in H by assumption. discriminate H.
    + split; [exact HD|].
      destruct (moderate_threshold_dec hpi mi cd) as [HM|HM]; [exact HM|].
      rewrite getPollutionStatus_safe in H by assumption. discriminate H.
  - split; [|intros [HD HM]; now apply getPollutionStatus_safe].
    intros H. destruct (danger_threshold_dec hpi mi cd) as [HD|HD].
    + rewrite getPollutionStatus_danger in H by assumption. discriminate H.
    + split; [exact HD|].
      destruct (moderate_threshold_dec hpi mi cd) as [HM|HM]; [|exact HM].
      rewrite getPollutionStatus_moderate in H by assumption. discriminate H.
  - intros Hmi Hcd. apply getPollutionStatus_moderate.
    + intros [H|[H|H]].
      * vm_compute in H. discriminate H.
      * rewrite (js_le_not_gt _ _ Hmi) in H. discriminate H.
      * rewrite (js_le_not_gt _ _ Hcd) in H. discriminate H.
    + left. vm_compute. reflexivity.
  - apply getPollutionStatus_danger. left. vm_compute. reflexivity.
  - vm_compute. reflexivity.
  - vm_compute. reflexivity.
Qed.

(** The boundary instance at hpi = 100.00, mi = 1.5, cd = 3. *)
Lemma getPollutionStatus_tiers_witness :
  JS.le (JS.lit 15 1) (JS.lit 15 1) = true /\
  JS.le (JS.lit 3 0) (JS.lit 3 0) = true /\
  getPollutionStatus (JS.lit 10000 2) (JS.lit 15 1) (JS.lit 3 0)
  = (moderate, "Moderate Contamination").
Proof.
  assert (Hmi : JS.le (JS.lit 15 1) (JS.lit 15 1) = true) by (vm_compute; reflexivity).
  assert (Hcd : JS.le (JS.lit 3 0) (JS.lit 3 0) = true) by (vm_compute; reflexivity).
  destruct (getPollutionStatus_tiers (JS.lit 10000 2) (JS.lit 15 1) (JS.lit 3 0))
    as (_ & _ & _ & Hb & _).
  exact (conj Hmi (conj Hcd (Hb Hmi Hcd))).
Defined.

(** ** The index calculator *)

Section IndexCalculator.

Lemma STANDARDS_limit (k : MetalKey) : STANDARDS k = Spec.limit k.
Proof. destruct k; reflexivity. Qed.

Lemma WEIGHTS_weight (k : MetalKey) : WEIGHTS k = Spec.weight k.
Proof. destruct k; reflexivity. Qed.

Lemma STANDARDS_finite (k : MetalKey) :
  exists m e, STANDARDS k = S754_finite false m e.
Proof. destruct k; vm_compute; eauto. Qed.

(** The two accumulators of the [forEach] loop are two independent sums. *)
Lemma calculateHPI_loop (metals : MetalConcentrations) (keys : list MetalKey) :
  forall weightedSum totalWeight,
    fold_left (calculateHPI_step metals) keys (weightedSum, totalWeight)
    = (fold_left JS.add (List.map (fun k => Spec.weight k * Spec.Q metals k)%js keys)
         weightedSum,
       fold_left JS.add (List.map Spec.weight keys) totalWeight).
Proof.
  induction keys as [|k keys IH]; intros ws tw; [reflexivity|].
  cbn [fold_left List.map]. rewrite <- IH. f_equal.
Qed.

Lemma totalWeight_positive (metals : MetalConcentrations) :
  JS.gt (fold_left JS.add (List.map Spec.weight (Object_keys metals)) (JS.lit 0 0))
    (JS.lit 0 0) = true.
Proof. vm_compute. reflexivity. Qed.

Lemma calculateHPI_eq_formula (metals : MetalConcentrations) :
  calculateHPI metals = Spec.HPI metals.
Proof.
  unfold calculateHPI. rewrite calculateHPI_loop. cbv beta iota zeta.
  rewrite totalWeight_positive. reflexivity.
Qed.

Lemma Q_zero (metals : MetalConcentrations) (k : MetalKey) :
  JS.le (getMetal metals k) (STANDARDS k) = true -> Spec.Q metals k = JS.pos_zero.
Proof.
  intros H. unfold Spec.Q. rewrite <- STANDARDS_limit, (js_le_not_gt _ _ H). reflexivity.
Qed.

Lemma calculateHPI_zero (metals : MetalConcentrations) :
  at_or_below_standard metals -> calculateHPI metals = JS.pos_zero.
Proof.
  intros H. rewrite calculateHPI_eq_formula. unfold Spec.HPI, Spec.metals_in_order.
  cbn [List.map]. rewrite !Q_zero by apply H. vm_compute. reflexivity.
Qed.

Lemma ratio_loop (metals : MetalConcentrations) (keys : list MetalKey) :
  forall acc,
    fold_left (fun acc metal => (acc + getMetal metals metal / STANDARDS metal)%js) keys acc
    = fold_left JS.add (List.map (Spec.exceedance metals) keys) acc.
Proof.
  induction keys as [|k keys IH]; intros acc; [reflexivity|].
  cbn [fold_left List.map]. rewrite IH. unfold Spec.exceedance at 2.
  rewrite STANDARDS_limit. reflexivity.
Qed.

Lemma calculateCd_eq_formula (metals : MetalConcentrations) :
  calculateCd metals = Spec.Cd metals.
Proof. unfold calculateCd. rewrite ratio_loop. reflexivity. Qed.

Lemma calculateMI_eq_formula (metals : MetalConcentrations) :
  calculateMI metals = Spec.MI metals.
Proof. unfold calculateMI. rewrite ratio_loop. reflexivity. Qed.

End IndexCalculator.

(** C3.  On non-negative concentrations [calculateHPI] is Σ(Wi*Qi)/Σ(Wi)
    over the four metals, with weights 0.9, 1.0, 1.0, 0.8 and
    Qi = 100*(Ci - Si)/Si when Ci > Si and 0 otherwise, for the limits
    0.01, 0.003, 0.01, 0.05; and when every concentration is at or below its
    standard the result is exactly 0. *)
Theorem calculateHPI_formula (metals : MetalConcentrations) :
  nonnegative metals ->
  calculateHPI metals = Spec.HPI metals /\
  (at_or_below_standard metals -> calculateHPI metals = JS.pos_zero).
Proof.
  intros _. split; [apply calculateHPI_eq_formula | apply calculateHPI_zero].
Qed.

Lemma calculateHPI_formula_witness :
  nonnegative half_the_standards /\
  at_or_below_standard half_the_standards /\
  calculateHPI half_the_standards = Spec.HPI half_the_standards /\
  calculateHPI half_the_standards = JS.pos_zero.
Proof.
  assert (Hn : nonnegative half_the_standards) by (intros []; vm_compute; reflexivity).
  assert (Hb : at_or_below_standard half_the_standards) by (intros []; vm_compute; reflexivity).
  destruct (calculateHPI_formula half_the_standards Hn) as [Hf Hz].
  exact (conj Hn (conj Hb (conj Hf (Hz Hb)))).
Defined.

(** C5.  [calculateMI] is the unweighted mean of the four ratios Ci/Si.
    Ratios below 1 count in full: at half the standards MI is 0.5 while HPI
    is 0.  At exactly the standards MI = 1.0 and Cd = 4.0, and MI is a
    quarter of Cd. *)
Theorem calculateMI_mean (metals : MetalConcentrations) :
  calculateMI metals = Spec.MI metals /\
  calculateMI half_the_standards = JS.lit 5 1 /\
  calculateHPI half_the_standards = JS.lit 0 0 /\
  calculateMI at_the_standards = JS.lit 10 1 /\
  calculateCd at_the_standards = JS.lit 40 1 /\
  (JS.lit 25 2 * calculateCd at_the_standards)%js = calculateMI at_the_standards.
Proof.
  split; [apply calculateMI_eq_formula|].
  repeat split; vm_compute; reflexivity.
Qed.

(** C6.  [calculateCd] is the unweighted sum of the four ratios Ci/Si; on
    the end-to-end example the stored Cd is 10.93 and the status is
    danger. *)
Theorem calculateCd_sum (metals : MetalConcentrations) :
  calculateCd metals = Spec.Cd metals /\
  cd (calculatePollutionIndices end_to_end_example) = JS.lit 1093 2 /\
  status (calculatePollutionIndices end_to_end_example) = danger /\
  JS.gt (calculateCd end_to_end_example) (JS.lit 3 0) = true.
Proof.
  split; [apply calculateCd_eq_formula|].
  repeat split; vm_compute; reflexivity.
Qed.

(** ** The critical-metal finder *)

Section CriticalMetal.

Local Open Scope list_scope.

Variable metals : MetalConcentrations.

Lemma js_lt_zero_sign (s : bool) (x : JS.number) :
  JS.lt (S754_zero s) x = JS.lt JS.pos_zero x.
Proof. destruct x; reflexivity. Qed.

Hypothesis ratios_at_least_zero :
  forall k, JS.le JS.pos_zero (Spec.exceedance metals k) = true.

Lemma selection_step (scanned : list MetalKey) (st : JS.number * string) (k : MetalKey) :
  selection metals scanned st ->
  selection metals (scanned ++ [k]) (getMostCriticalMetal_step metals st k).
Proof.
  destruct st as [maxRatio criticalMetal]. unfold getMostCriticalMetal_step.
  change (getMetal metals k / STANDARDS k)%js with (Spec.exceedance metals k).
  intros [(Hm & Hc & Hz) | (pre & k0 & post & Hs & Hm & Hc & Hpos & Hpre & Hpost)];
    cbn [fst snd] in Hm, Hc; subst maxRatio criticalMetal.
  - destruct (JS.gt (Spec.exceedance metals k) JS.pos_zero) eqn:E.
    + right. exists scanned, k, [].
      refine (conj eq_refl (conj eq_refl (conj eq_refl (conj E (conj _ _))))).
      * intros j Hj. destruct (Hz j Hj) as [s ->]. rewrite js_lt_zero_sign. exact E.
      * intros j [].
    + left. refine (conj eq_refl (conj eq_refl _)). intros j Hj.
      apply in_app_or in Hj as [Hj|[<-|[]]]; [now apply Hz|].
      apply js_le_zero_not_gt; [apply ratios_at_least_zero | exact E].
  - destruct (JS.gt (Spec.exceedance metals k) (Spec.exceedance metals k0)) eqn:E.
    + right. exists scanned, k, [].
      refine (conj eq_refl (conj eq_refl (conj eq_refl (conj _ (conj _ _))))).
      * exact (js_lt_trans _ _ _ Hpos E).
      * intros j Hj. rewrite Hs in Hj. apply in_app_or in Hj as [Hj|[<-|Hj]].
        -- exact (js_lt_trans _ _ _ (Hpre j Hj) E).
        -- exact E.
        -- exact (js_le_lt_trans _ _ _ (Hpost j Hj) E).
      * intros j [].
    + right. exists pre, k0, (post ++ [k]).
      refine (conj _ (conj eq_refl (conj eq_refl (conj Hpos (conj Hpre _))))).
      * rewrite Hs, <- List.app_assoc. reflexivity.
      * intros j Hj. apply in_app_or in Hj as [Hj|[<-|[]]]; [now apply Hpost|].
        apply js_not_gt_le; [| |exact E].
        -- exact (js_le_isNaN_r _ _ (ratios_at_least_zero k)).
        -- exact (js_lt_isNaN_r _ _ Hpos).
Qed.

Lemma selection_loop (keys : list MetalKey) :
  forall scanned st,
    selection metals scanned st ->
    selection metals (scanned ++ keys)
      (fold_left (getMostCriticalMetal_step metals) keys st).
Proof.
  induction keys as [|k keys IH]; intros scanned st H; simpl.
  - rewrite List.app_nil_r. exact H.
  - change (k :: keys) with ([k] ++ keys). rewrite List.app_assoc.
    apply IH, selection_step, H.
Qed.

Lemma selection_initial : selection metals [] (JS.lit 0 0, "lead").
Proof. left. repeat split. intros j []. Qed.

End CriticalMetal.

Section CriticalMetalResult.

Local Open Scope list_scope.

Lemma ratios_nonnegative (metals : MetalConcentrations) :
  nonnegative metals ->
  forall k, JS.le JS.pos_zero (Spec.exceedance metals k) = true.
Proof.
  intros H k. unfold Spec.exceedance. rewrite <- STANDARDS_limit.
  destruct (STANDARDS_finite k) as (m & e & ->). apply js_div_nonneg, H.
Qed.

(** The expression that builds the returned name agrees with [capitalized]
    on the four keys. *)
Lemma capitalized_key (k : MetalKey) :
  (JS.toUpperCase (JS.charAt (keyName k) 0) ++ JS.slice (keyName k) 1)%string
  = capitalized (keyName k).
Proof. destruct k; reflexivity. Qed.

Lemma criticalMetal_is_key (metals : MetalConcentrations) (keys : list MetalKey) :
  forall st,
    (exists k, snd st = keyName k) ->
    exists k, snd (fold_left (getMostCriticalMetal_step metals) keys st) = keyName k.
Proof.
  induction keys as [|k keys IH]; intros [maxRatio criticalMetal] H; [exact H|].
  cbn [fold_left]. apply IH. unfold getMostCriticalMetal_step.
  destruct (JS.gt _ maxRatio); [exists k; reflexivity | exact H].
Qed.

End CriticalMetalResult.

(** C7 as stated fails: the tie is not decided by the order lead, cadmium,
    arsenic, chromium but by the order of the object's own keys.  With the
    four ratios all equal to 2, the object written with chromium first
    gives Chromium where the same values written with lead first give Lead.
    Nor is the largest ratio selected when no ratio is above 0: with four
    negative concentrations the result is Lead with ratio 0, although
    cadmium has the largest ratio. *)
Lemma getMostCriticalMetal_follows_key_order :
  (forall k, Spec.exceedance twice_the_standards k = JS.lit 2 0) /\
  getMostCriticalMetal twice_the_standards_chromium_first
  = {| metal := "Chromium"; ratio := JS.lit 20 1; exceedsStandard := true |} /\
  getMostCriticalMetal twice_the_standards
  = {| metal := "Lead"; ratio := JS.lit 20 1; exceedsStandard := true |} /\
  getMostCriticalMetal below_zero
  = {| metal := "Lead"; ratio := JS.lit 0 0; exceedsStandard := false |} /\
  JS.lt (Spec.exceedance below_zero Klead) (Spec.exceedance below_zero Kcadmium) = true.
Proof.
  split; [intros []; vm_compute; reflexivity|].
  repeat split; vm_compute; reflexivity.
Qed.

(** C7, amended.  Let the object have the four keys in any order and
    non-negative concentrations.  If no ratio Ck/Sk is above 0, every ratio
    is a zero and [getMostCriticalMetal] returns the initial Lead, 0 and
    false.  Otherwise it selects the metal [k] with the largest ratio, the
    first such metal in the order of the object's own keys winning ties:
    the ratio of [k] is strictly above the ratio of every key before it
    and at least the ratio of every key after it.  It returns that metal's
    name (capitalized), its ratio rounded to 2 decimals, and whether the
    ratio is above 1.  For an object whose keys are in the order lead,
    cadmium, arsenic, chromium this is the first metal of that order with
    the largest ratio; written so, twice the standards give Lead, 2.0 and
    true. *)
Theorem getMostCriticalMetal_selects (metals : MetalObject) :
  has_the_four_keys metals ->
  nonnegative (properties metals) ->
  (((forall j, exists s, Spec.exceedance (properties metals) j = S754_zero s) /\
    getMostCriticalMetal metals
    = {| metal := "Lead"; ratio := JS.lit 0 0; exceedsStandard := false |})
   \/
   (exists k,
      JS.lt JS.pos_zero (Spec.exceedance (properties metals) k) = true /\
      first_largest (Object_keys metals) (properties metals) k /\
      (forall j, JS.le (Spec.exceedance (properties metals) j)
                   (Spec.exceedance (properties metals) k) = true) /\
      getMostCriticalMetal metals = result_for (properties metals) k)) /\
  (Object_keys metals = [Klead; Kcadmium; Karsenic; Kchromium] ->
   exists k,
     first_largest [Klead; Kcadmium; Karsenic; Kchromium] (properties metals) k /\
     getMostCriticalMetal metals = result_for (properties metals) k) /\
  getMostCriticalMetal twice_the_standards
  = {| metal := "Lead"; ratio := JS.lit 20 1; exceedsStandard := true |}.
Proof.
  intros Hkeys Hnn.
  assert (Hall : forall j, In j (Object_keys metals)).
  { intros j. apply (Permutation_in j (Permutation_sym Hkeys)).
    destruct j; simpl; tauto. }
  pose proof (selection_loop (properties metals)
                (ratios_nonnegative (properties metals) Hnn)
                (Object_keys metals) [] _ (selection_initial (properties metals))) as Hsel.
  cbn [app] in Hsel.
  assert (Hcases :
    ((forall j, exists s, Spec.exceedance (properties metals) j = S754_zero s) /\
     getMostCriticalMetal metals
     = {| metal := "Lead"; ratio := JS.lit 0 0; exceedsStandard := false |})
    \/
    (exists k,
       JS.lt JS.pos_zero (Spec.exceedance (properties metals) k) = true /\
       first_largest (Object_keys metals) (properties metals) k /\
       (forall j, JS.le (Spec.exceedance (properties metals) j)
                    (Spec.exceedance (properties metals) k) = true) /\
       getMostCriticalMetal metals = result_for (properties metals) k)).
  { unfold getMostCriticalMetal. cbv zeta.
    destruct (fold_left (getMostCriticalMetal_step (properties metals)) (Object_keys metals)
                (JS.lit 0 0, "lead")) as [maxRatio criticalMetal].
    destruct Hsel as [(Hm & Hc & Hz) | (pre & k & post & Hs & Hm & Hc & Hpos & Hpre & Hpost)];
      cbn [fst snd] in Hm, Hc; subst maxRatio criticalMetal.
    - left. split; [|reflexivity]. intros j. apply Hz, Hall.
    - right. exists k. split; [exact Hpos|]. split; [exists pre, post; auto|]. split.
      + intros j. pose proof (Hall j) as Hj. rewrite Hs in Hj.
        apply in_app_or in Hj as [Hj|[<-|Hj]].
        * apply js_lt_le, Hpre, Hj.
        * apply js_le_refl. exact (js_lt_isNaN_r _ _ Hpos).
        * apply Hpost, Hj.
      + unfold result_for. rewrite capitalized_key. reflexivity. }
  split; [exact Hcases|]. split; [|vm_compute; reflexivity].
  intros Horder. destruct Hcases as [[Hz E] | (k & _ & Hk & _ & E)].
  - exists Klead. split.
    + exists [], [Kcadmium; Karsenic; Kchromium].
      split; [reflexivity|]. split; [intros j []|].
      intros j _. destruct (Hz j) as [s ->], (Hz Klead) as [s0 ->]. reflexivity.
    + rewrite E. unfold result_for. destruct (Hz Klead) as [s0 ->].
      destruct s0; reflexivity.
  - exists k. rewrite <- Horder. auto.
Qed.

Lemma getMostCriticalMetal_selects_witness :
  has_the_four_keys twice_the_standards_chromium_first /\
  nonnegative (properties twice_the_standards_chromium_first) /\
  exists k,
    first_largest [Kchromium; Karsenic; Kcadmium; Klead] twice_the_standards k /\
    getMostCriticalMetal twice_the_standards_chromium_first
    = result_for twice_the_standards k.
Proof.
  assert (Hk : has_the_four_keys twice_the_standards_chromium_first).
  { exact (Permutation_sym (Permutation_rev [Klead; Kcadmium; Karsenic; Kchromium])). }
  assert (Hn : nonnegative (properties twice_the_standards_chromium_first))
    by (intros []; vm_compute; reflexivity).
  split; [exact Hk|]. split; [exact Hn|].
  destruct (getMostCriticalMetal_selects twice_the_standards_chromium_first Hk Hn)
    as [[[_ E] | (k & _ & Hf & _ & E)] _].
  - apply (f_equal metal) in E. vm_compute in E. discriminate E.
  - exists k. split; [exact Hf | exact E].
Defined.

(** C10.  The name [getMostCriticalMetal] returns is the key of one of the
    four metals with its first letter uppercased: Lead, Cadmium, Arsenic or
    Chromium.  When all four concentrations are zero no ratio is above the
    initial maximum 0 and the result is Lead, 0, false. *)
Theorem getMostCriticalMetal_capitalized (metals : MetalConcentrations) :
  (exists k, metal (getMostCriticalMetal metals) = capitalized (keyName k)) /\
  In (metal (getMostCriticalMetal metals)) ["Lead"; "Cadmium"; "Arsenic"; "Chromium"] /\
  (forall s1 s2 s3 s4 : bool,
     getMostCriticalMetal
       {| lead := S754_zero s1; cadmium := S754_zero s2;
          arsenic := S754_zero s3; chromium := S754_zero s4 |}
     = {| metal := "Lead"; ratio := JS.lit 0 0; exceedsStandard := false |}).
Proof.
  assert (H : exists k, metal (getMostCriticalMetal metals) = capitalized (keyName k)).
  { unfold getMostCriticalMetal.
    destruct (criticalMetal_is_key metals (Object_keys metals) (JS.lit 0 0, "lead"))
      as [k Hk]; [exists Klead; reflexivity|].
    destruct (fold_left _ _ _) as [maxRatio criticalMetal].
    cbn [snd] in Hk. subst criticalMetal.
    exists k. cbn [metal]. apply capitalized_key. }
  split; [exact H|]. split.
  - destruct H as [k ->]. destruct k; simpl; tauto.
  - intros [] [] [] []; vm_compute; reflexivity.
Qed.

(** ** The dataset aggregator *)

Section Aggregator.

Local Open Scope list_scope.

Lemma tier_counts_total (results : list PollutionIndices) :
  tier_count safe results + tier_count moderate results + tier_count danger results
  = List.length results.
Proof.
  unfold tier_count. induction results as [|r results IH]; [reflexivity|].
  cbn [List.filter]. destruct (status r); cbn [Status_eqb List.length]; lia.
Qed.

End Aggregator.

(** C8 as stated fails for the percentages: with 23 safe results among 80
    the stored percentage is 28.7, where round(100 * count/total, 1) is
    28.8.  The quotient 23/80 is rounded to a double before it is
    multiplied by 100, and the product lies just below 28.75. *)
Lemma generateSummaryStats_percentage_differs :
  exists s,
    generateSummaryStats twenty_three_of_eighty = JS.Return s /\
    Summary.total s = 80%nat /\
    Summary.count (Summary.safe (Summary.distribution s)) = 23%nat /\
    Summary.percentage (Summary.safe (Summary.distribution s)) = JS.lit 287 1 /\
    Spec.percentage 23 80 = JS.lit 288 1 /\
    Summary.percentage (Summary.safe (Summary.distribution s))
    <> Spec.percentage (Summary.count (Summary.safe (Summary.distribution s)))
         (Summary.total s).
Proof.
  eexists. split; [reflexivity|].
  cbn [Summary.total Summary.distribution Summary.safe Summary.count Summary.percentage].
  assert (Ht : List.length twenty_three_of_eighty = 80%nat) by reflexivity.
  assert (Hc : List.length (List.filter (fun r => Status_eqb (status r) safe)
                              twenty_three_of_eighty) = 23%nat)
    by (vm_compute; reflexivity).
  rewrite Ht, Hc.
  assert (Hcode : JS.Number (JS.toFixed ((JS.of_nat 23 / JS.of_nat 80) * JS.lit 100 0)%js 1)
                  = JS.lit 287 1) by (vm_compute; reflexivity).
  assert (Hspec : Spec.percentage 23 80 = JS.lit 288 1) by (vm_compute; reflexivity).
  rewrite Hcode, Hspec.
  repeat split. vm_compute. discriminate.
Qed.

(** C8, amended.  For a non-empty collection [generateSummaryStats] returns
    a summary whose total is the collection's length, whose three counts
    are the numbers of results of each tier and add up to the total
    exactly, and whose three percentages are each computed from their own
    tier's count as the double (count / total) * 100, the quotient being
    rounded before the multiplication, to one decimal. *)
Theorem generateSummaryStats_counts (results : list PollutionIndices) :
  results <> [] ->
  exists s,
    generateSummaryStats results = JS.Return s /\
    Summary.total s = List.length results /\
    (0 < Summary.total s)%nat /\
    Summary.count (Summary.safe (Summary.distribution s)) = tier_count safe results /\
    Summary.count (Summary.moderate (Summary.distribution s)) = tier_count moderate results /\
    Summary.count (Summary.danger (Summary.distribution s)) = tier_count danger results /\
    (Summary.count (Summary.safe (Summary.distribution s))
     + Summary.count (Summary.moderate (Summary.distribution s))
     + Summary.count (Summary.danger (Summary.distribution s))
     = Summary.total s)%nat /\
    Summary.percentage (Summary.safe (Summary.distribution s))
    = Spec.round1
        ((JS.of_nat (Summary.count (Summary.safe (Summary.distribution s)))
          / JS.of_nat (Summary.total s)) * JS.lit 100 0)%js /\
    Summary.percentage (Summary.moderate (Summary.distribution s))
    = Spec.round1
        ((JS.of_nat (Summary.count (Summary.moderate (Summary.distribution s)))
          / JS.of_nat (Summary.total s)) * JS.lit 100 0)%js /\
    Summary.percentage (Summary.danger (Summary.distribution s))
    = Spec.round1
        ((JS.of_nat (Summary.count (Summary.danger (Summary.distribution s)))
          / JS.of_nat (Summary.total s)) * JS.lit 100 0)%js.
Proof.
  intros Hne. unfold generateSummaryStats. eexists. split; [reflexivity|].
  cbn [Summary.total Summary.distribution Summary.safe Summary.moderate Summary.danger
       Summary.count Summary.percentage].
  fold (tier_count safe results) (tier_count moderate results) (tier_count danger results).
  split; [reflexivity|]. split.
  { destruct results; [contradiction|]. cbn [List.length]. lia. }
  repeat split. apply tier_counts_total.
Qed.

Lemma generateSummaryStats_counts_witness :
  twenty_three_of_eighty <> [] /\
  exists s,
    generateSummaryStats twenty_three_of_eighty = JS.Return s /\
    Summary.total s = 80%nat /\
    Summary.percentage (Summary.safe (Summary.distribution s))
    = Spec.round1 ((JS.of_nat (Summary.count (Summary.safe (Summary.distribution s)))
                    / JS.of_nat (Summary.total s)) * JS.lit 100 0)%js.
Proof.
  assert (H : twenty_three_of_eighty <> []) by (unfold twenty_three_of_eighty; discriminate).
  split; [exact H|].
  destruct (generateSummaryStats_counts twenty_three_of_eighty H)
    as (s & Hs & Ht & _ & _ & _ & _ & _ & Hp & _).
  exists s. split; [exact Hs|]. split; [rewrite Ht; reflexivity | exact Hp].
Defined.

(** The three percentages are rounded independently and need not add up to
    100: here each is 33.3. *)
Example percentages_need_not_sum_to_100 :
  exists s,
    generateSummaryStats one_of_each = JS.Return s /\
    Summary.percentage (Summary.safe (Summary.distribution s)) = JS.lit 333 1 /\
    Summary.percentage (Summary.moderate (Summary.distribution s)) = JS.lit 333 1 /\
    Summary.percentage (Summary.danger (Summary.distribution s)) = JS.lit 333 1 /\
    JS.lt (JS.lit 333 1 + JS.lit 333 1 + JS.lit 333 1)%js (JS.lit 100 0) = true.
Proof.
  eexists. split; [reflexivity|]. repeat split; vm_compute; reflexivity.
Qed.

(** C1 as stated fails: on the empty collection the call does not end in
    an error. *)
Lemma generateSummaryStats_empty_does_not_fail :
  ~ fails (generateSummaryStats []).
Proof. intros [error H]. discriminate H. Qed.

(** C1, amended.  On the empty collection [generateSummaryStats] raises no
    error: it returns a summary with total 0, the three counts 0, the three
    percentages NaN, the three averages NaN and the three maximums
    -Infinity. *)
Theorem generateSummaryStats_empty :
  generateSummaryStats []
  = JS.Return
      {| Summary.total := 0;
         Summary.distribution :=
           {| Summary.safe := {| Summary.count := 0; Summary.percentage := JS.NaN |};
              Summary.moderate := {| Summary.count := 0; Summary.percentage := JS.NaN |};
              Summary.danger := {| Summary.count := 0; Summary.percentage := JS.NaN |} |};
         Summary.averages :=
           {| Summary.hpi := JS.NaN; Summary.mi := JS.NaN; Summary.cd := JS.NaN |};
         Summary.maximums :=
           {| Summary.hpi := JS.neg_Infinity;
              Summary.mi := JS.neg_Infinity;
              Summary.cd := JS.neg_Infinity |} |}.
Proof. vm_compute. reflexivity. Qed.

(** ** The stored indices and the status *)

(** C2 as stated fails: the status of this record is danger, while its
    stored hpi, mi and cd classify as moderate. *)
Lemma status_differs_from_stored_classification :
  let record := calculatePollutionIndices lead_just_above_three in
  status record = danger /\
  cd record = JS.lit 3 0 /\
  fst (getPollutionStatus (hpi record) (mi record) (cd record)) = moderate /\
  status record <> fst (getPollutionStatus (hpi record) (mi record) (cd record)).
Proof.
  cbv zeta. repeat split; try (vm_compute; reflexivity).
  vm_compute. discriminate.
Qed.

(** C2, amended.  The status and the label of the record are the
    classification of the three index values as computed, before rounding;
    the stored hpi, mi and cd are those values rounded to 2 decimals. *)
Theorem calculatePollutionIndices_status (metals : MetalConcentrations) :
  let record := calculatePollutionIndices metals in
  (status record, statusLabel record)
  = getPollutionStatus (calculateHPI metals) (calculateMI metals) (calculateCd metals) /\
  hpi record = JS.Number (JS.toFixed (calculateHPI metals) 2) /\
  mi record = JS.Number (JS.toFixed (calculateMI metals) 2) /\
  cd record = JS.Number (JS.toFixed (calculateCd metals) 2).
Proof.
  cbv zeta. unfold calculatePollutionIndices.
  destruct (getPollutionStatus _ _ _) as [st label]. repeat split.
Qed.

Section SampleProcessor.

Lemma analyzeSample_other (sample : SampleData) (field : string) :
  field <> "indices" -> analyzeSample sample !! field = sample !! field.
Proof.
  intros H. unfold analyzeSample. apply lookup_insert_ne. congruence.
Qed.

Lemma analyzeSample_indices (sample : SampleData) :
  analyzeSample sample !! "indices"
  = Some (VIndices (calculatePollutionIndices (metalConcentrations_of sample))).
Proof. unfold analyzeSample. apply lookup_insert_eq. Qed.

Lemma analyzeSample_only_adds (sample : SampleData) :
  delete "indices" (analyzeSample sample) = delete "indices" sample.
Proof. unfold analyzeSample. apply delete_insert_eq. Qed.

Lemma sample_fields_not_indices (field : string) :
  In field sample_fields -> field <> "indices".
Proof.
  unfold sample_fields. simpl. intros H.
  repeat (destruct H as [<-|H]; [discriminate|]). destruct H.
Qed.

Lemma analyzeData_lookup (uploadedData : list SampleData) :
  forall i sample,
    uploadedData !! i = Some sample ->
    analyzeData uploadedData !! i = Some (analyzeSample sample).
Proof.
  induction uploadedData as [|s rest IH]; intros [|i] sample H;
    try discriminate H; simpl in *.
  - congruence.
  - apply IH, H.
Qed.

End SampleProcessor.

(** C9.  The result produced for an input sample holds every property of
    the sample (among them sampleId, latitude, longitude, lead, cadmium,
    arsenic and chromium) with its value unchanged; apart from the property
    [indices], which holds the computed PollutionIndices, the result and the
    sample are the same object. *)
Theorem analyzeData_keeps_sample (uploadedData : list SampleData)
    (i : nat) (sample : SampleData) :
  uploadedData !! i = Some sample ->
  exists result,
    analyzeData uploadedData !! i = Some result /\
    (forall field, In field sample_fields -> result !! field = sample !! field) /\
    (forall field, field <> "indices" -> result !! field = sample !! field) /\
    delete "indices" result = delete "indices" sample /\
    result !! "indices"
    = Some (VIndices (calculatePollutionIndices (metalConcentrations_of sample))) /\
    List.length (analyzeData uploadedData) = List.length uploadedData.
Proof.
  intros H. exists (analyzeSample sample).
  split; [apply analyzeData_lookup, H|].
  split; [intros field Hf; apply analyzeSample_other, sample_fields_not_indices, Hf|].
  split; [apply analyzeSample_other|].
  split; [apply analyzeSample_only_adds|].
  split; [apply analyzeSample_indices|].
  unfold analyzeData. apply List.length_map.
Qed.

Lemma analyzeData_keeps_sample_witness :
  [sample_S1] !! 0%nat = Some sample_S1 /\
  exists result,
    analyzeData [sample_S1] !! 0%nat = Some result /\
    delete "indices" result = delete "indices" sample_S1.
Proof.
  assert (H : [sample_S1] !! 0%nat = Some sample_S1) by reflexivity.
  split; [exact H|].
  destruct (analyzeData_keeps_sample [sample_S1] 0 sample_S1 H)
    as (result & Hr & _ & _ & Hd & _).
  exists result. exact (conj Hr Hd).
Defined.

(** ** NaN in the index calculator *)

Section NaNPropagation.

Lemma js_add_NaN_r (x : JS.number) : JS.add x JS.NaN = JS.NaN.
Proof. destruct x; reflexivity. Qed.

Lemma js_add_NaN_l (x : JS.number) : JS.add JS.NaN x = JS.NaN.
Proof. destruct x; reflexivity. Qed.

Lemma js_div_NaN_l (x : JS.number) : JS.div JS.NaN x = JS.NaN.
Proof. destruct x; reflexivity. Qed.

Lemma js_isNaN_eq (x : JS.number) : JS.isNaN x = true -> x = JS.NaN.
Proof. destruct x; intros H; try discriminate H; reflexivity. Qed.

Lemma js_gt_NaN_l (x : JS.number) : JS.gt JS.NaN x = false.
Proof. destruct x; reflexivity. Qed.

Lemma js_gt_NaN_r (x : JS.number) : JS.gt x JS.NaN = false.
Proof. destruct x; reflexivity. Qed.

Lemma sum_from_NaN (terms : list JS.number) :
  fold_left JS.add terms JS.NaN = JS.NaN.
Proof.
  induction terms as [|t terms IH]; [reflexivity|].
  cbn [fold_left]. rewrite js_add_NaN_l. exact IH.
Qed.

(** A sum with a NaN term is NaN, wherever the term stands. *)
Lemma sum_with_NaN (terms : list JS.number) :
  forall acc, In JS.NaN terms -> fold_left JS.add terms acc = JS.NaN.
Proof.
  induction terms as [|t terms IH]; intros acc H; [destruct H|].
  cbn [fold_left]. destruct H as [->|H].
  - rewrite js_add_NaN_r. apply sum_from_NaN.
  - apply IH, H.
Qed.

Lemma exceedance_NaN (metals : MetalConcentrations) (k : MetalKey) :
  JS.isNaN (getMetal metals k) = true -> Spec.exceedance metals k = JS.NaN.
Proof.
  intros H. unfold Spec.exceedance. rewrite (js_isNaN_eq _ H). apply js_div_NaN_l.
Qed.

Lemma Cd_NaN (metals : MetalConcentrations) (k : MetalKey) :
  JS.isNaN (getMetal metals k) = true -> calculateCd metals = JS.NaN.
Proof.
  intros H. rewrite calculateCd_eq_formula. unfold Spec.Cd, Spec.sum.
  apply sum_with_NaN. rewrite <- (exceedance_NaN metals k H).
  apply in_map. unfold Spec.metals_in_order. destruct k; simpl; tauto.
Qed.

Lemma MI_NaN (metals : MetalConcentrations) (k : MetalKey) :
  JS.isNaN (getMetal metals k) = true -> calculateMI metals = JS.NaN.
Proof.
  intros H. rewrite calculateMI_eq_formula. unfold Spec.MI.
  fold (Spec.Cd metals). rewrite <- calculateCd_eq_formula, (Cd_NaN metals k H).
  apply js_div_NaN_l.
Qed.

Lemma Q_not_above (metals : MetalConcentrations) (k : MetalKey) :
  JS.gt (getMetal metals k) (STANDARDS k) = false -> Spec.Q metals k = JS.pos_zero.
Proof. intros H. unfold Spec.Q. rewrite <- STANDARDS_limit, H. reflexivity. Qed.

Lemma calculateHPI_none_above (metals : MetalConcentrations) :
  (forall k, JS.gt (getMetal metals k) (STANDARDS k) = false) ->
  calculateHPI metals = JS.pos_zero.
Proof.
  intros H. rewrite calculateHPI_eq_formula. unfold Spec.HPI, Spec.metals_in_order.
  cbn [List.map]. rewrite !Q_not_above by apply H. vm_compute. reflexivity.
Qed.

(** With NaN for MI and Cd the classifier looks at HPI alone. *)
Lemma getPollutionStatus_NaN (h : JS.number) :
  getPollutionStatus h JS.NaN JS.NaN
  = if JS.gt h (JS.lit 100 0) then (danger, "High Contamination")
    else if JS.gt h (JS.lit 50 0) then (moderate, "Moderate Contamination")
    else (safe, "Safe Level").
Proof.
  unfold getPollutionStatus. rewrite !js_gt_NaN_l, !orb_false_r. reflexivity.
Qed.

Lemma gt_100_gt_50 (h : JS.number) :
  JS.gt h (JS.lit 100 0) = true -> JS.gt h (JS.lit 50 0) = true.
Proof.
  intros H. rewrite js_gt_lt in *.
  apply (js_lt_trans (JS.lit 50 0) (JS.lit 100 0) h); [vm_compute; reflexivity | exact H].
Qed.

End NaNPropagation.

(** X1.  A NaN concentration makes MI and Cd NaN, in the computation and in
    the stored record, and leaves the status to HPI alone: the record is
    danger exactly when the computed HPI is above 100 and safe exactly when
    it is not above 50.  If moreover no concentration is above its standard
    the record is safe with hpi 0. *)
Theorem calculatePollutionIndices_NaN (metals : MetalConcentrations) (k : MetalKey) :
  JS.isNaN (getMetal metals k) = true ->
  let record := calculatePollutionIndices metals in
  calculateMI metals = JS.NaN /\ calculateCd metals = JS.NaN /\
  mi record = JS.NaN /\ cd record = JS.NaN /\
  (status record = danger <-> JS.gt (calculateHPI metals) (JS.lit 100 0) = true) /\
  (status record = safe <-> JS.gt (calculateHPI metals) (JS.lit 50 0) = false) /\
  ((forall j, JS.gt (getMetal metals j) (STANDARDS j) = false) ->
   record = {| hpi := JS.pos_zero; mi := JS.NaN; cd := JS.NaN;
               status := safe; statusLabel := "Safe Level" |}).
Proof.
  intros H. cbv zeta.
  pose proof (MI_NaN metals k H) as Hmi. pose proof (Cd_NaN metals k H) as Hcd.
  pose proof (calculateHPI_none_above metals) as Hzero.
  unfold calculatePollutionIndices. rewrite Hmi, Hcd.
  generalize dependent (calculateHPI metals). intros h Hzero.
  rewrite (getPollutionStatus_NaN h).
  split; [reflexivity|]. split; [reflexivity|].
  destruct (JS.gt h (JS.lit 100 0)) eqn:E100;
    [|destruct (JS.gt h (JS.lit 50 0)) eqn:E50]; cbn [mi cd status].
  - pose proof (gt_100_gt_50 h E100) as E50.
    split; [reflexivity|]. split; [reflexivity|]. split; [tauto|].
    split; [split; intros H0; [discriminate H0 | congruence]|].
    intros Hall. rewrite (Hzero Hall) in E100. vm_compute in E100. discriminate E100.
  - split; [reflexivity|]. split; [reflexivity|].
    split; [split; intros H0; discriminate H0|].
    split; [split; intros H0; discriminate H0|].
    intros Hall. rewrite (Hzero Hall) in E50. vm_compute in E50. discriminate E50.
  - split; [reflexivity|]. split; [reflexivity|].
    split; [split; intros H0; discriminate H0|].
    split; [tauto|].
    intros Hall. rewrite (Hzero Hall). reflexivity.
Qed.

(** All four concentrations NaN, as [parseFloat] gives for text that is
    not a number. *)
Lemma calculatePollutionIndices_NaN_witness :
  let metals := {| lead := JS.NaN; cadmium := JS.NaN; arsenic := JS.NaN; chromium := JS.NaN |} in
  JS.isNaN (getMetal metals Klead) = true /\
  status (calculatePollutionIndices metals) = safe /\
  cd (calculatePollutionIndices metals) = JS.NaN.
Proof.
  cbv zeta.
  set (metals := {| lead := JS.NaN; cadmium := JS.NaN; arsenic := JS.NaN; chromium := JS.NaN |}).
  assert (H : JS.isNaN (getMetal metals Klead) = true) by reflexivity.
  destruct (calculatePollutionIndices_NaN metals Klead H) as (_ & _ & _ & Hcd & _ & _ & Hall).
  split; [exact H|].
  rewrite Hall by (intros []; reflexivity). split; reflexivity.
Defined.

(** ** More on the classifier *)

Section ClassifierOrder.

(** A threshold exceeded stays exceeded when the index grows. *)
Lemma gt_threshold_mono (x x' t : JS.number) :
  JS.le x x' = true -> JS.gt x t = true -> JS.gt x' t = true.
Proof.
  intros Hle Hgt. rewrite js_gt_lt in *. exact (js_lt_le_trans _ _ _ Hgt Hle).
Qed.

Lemma danger_threshold_mono (hpi mi cd hpi' mi' cd' : JS.number) :
  JS.le hpi hpi' = true -> JS.le mi mi' = true -> JS.le cd cd' = true ->
  danger_threshold_exceeded hpi mi cd -> danger_threshold_exceeded hpi' mi' cd'.
Proof.
  intros H1 H2 H3 [H|[H|H]]; [left|right; left|right; right];
    eapply gt_threshold_mono; eassumption.
Qed.

Lemma moderate_threshold_mono (hpi mi cd hpi' mi' cd' : JS.number) :
  JS.le hpi hpi' = true -> JS.le mi mi' = true -> JS.le cd cd' = true ->
  moderate_threshold_exceeded hpi mi cd -> moderate_threshold_exceeded hpi' mi' cd'.
Proof.
  intros H1 H2 H3 [H|[H|H]]; [left|right; left|right; right];
    eapply gt_threshold_mono; eassumption.
Qed.

(** Above a danger threshold is above the matching moderate threshold. *)
Lemma danger_is_moderate (hpi mi cd : JS.number) :
  danger_threshold_exceeded hpi mi cd -> moderate_threshold_exceeded hpi mi cd.
Proof.
  intros [H|[H|H]]; [left|right; left|right; right];
    rewrite js_gt_lt in *; (eapply js_lt_trans; [|exact H]); vm_compute; reflexivity.
Qed.

Lemma getPollutionStatus_cases (hpi mi cd : JS.number) :
  (danger_threshold_exceeded hpi mi cd /\
   getPollutionStatus hpi mi cd = (danger, "High Contamination")) \/
  (~ danger_threshold_exceeded hpi mi cd /\ moderate_threshold_exceeded hpi mi cd /\
   getPollutionStatus hpi mi cd = (moderate, "Moderate Contamination")) \/
  (~ danger_threshold_exceeded hpi mi cd /\ ~ moderate_threshold_exceeded hpi mi cd /\
   getPollutionStatus hpi mi cd = (safe, "Safe Level")).
Proof.
  destruct (danger_threshold_dec hpi mi cd) as [HD|HD].
  - left. split; [exact HD|]. now apply getPollutionStatus_danger.
  - destruct (moderate_threshold_dec hpi mi cd) as [HM|HM].
    + right. left. repeat split; try assumption. now apply getPollutionStatus_moderate.
    + right. right. repeat split; try assumption. now apply getPollutionStatus_safe.
Qed.

End ClassifierOrder.

(** X2.  The label always goes with the status: in every classification,
    and so in every record [calculatePollutionIndices] returns, the label is
    "Safe Level" for safe, "Moderate Contamination" for moderate and "High
    Contamination" for danger. *)
Theorem statusLabel_matches_status (hpi mi cd : JS.number) (metals : MetalConcentrations) :
  snd (getPollutionStatus hpi mi cd) = label_of (fst (getPollutionStatus hpi mi cd)) /\
  statusLabel (calculatePollutionIndices metals)
  = label_of (status (calculatePollutionIndices metals)).
Proof.
  assert (H : forall a b c,
             snd (getPollutionStatus a b c) = label_of (fst (getPollutionStatus a b c))).
  { intros a b c.
    destruct (getPollutionStatus_cases a b c) as [(_ & ->)|[(_ & _ & ->)|(_ & _ & ->)]];
      reflexivity. }
  split; [apply H|].
  unfold calculatePollutionIndices.
  specialize (H (calculateHPI metals) (calculateMI metals) (calculateCd metals)).
  destruct (getPollutionStatus _ _ _) as [st label]. exact H.
Qed.

(** X3.  The classifier is monotone: when none of the three indices
    decreases, the tier does not get less severe. *)
Theorem getPollutionStatus_monotone (hpi mi cd hpi' mi' cd' : JS.number) :
  JS.le hpi hpi' = true -> JS.le mi mi' = true -> JS.le cd cd' = true ->
  severity (fst (getPollutionStatus hpi mi cd))
  <= severity (fst (getPollutionStatus hpi' mi' cd')).
Proof.
  intros H1 H2 H3.
  destruct (getPollutionStatus_cases hpi mi cd) as [(HD & ->)|[(_ & HM & ->)|(_ & _ & ->)]];
    cbn [fst severity].
  - rewrite (getPollutionStatus_danger _ _ _
               (danger_threshold_mono _ _ _ _ _ _ H1 H2 H3 HD)). cbn [fst severity]. lia.
  - pose proof (moderate_threshold_mono _ _ _ _ _ _ H1 H2 H3 HM) as HM'.
    destruct (getPollutionStatus_cases hpi' mi' cd')
      as [(_ & ->)|[(_ & _ & ->)|(_ & HM'' & _)]]; cbn [fst severity]; try lia.
    contradiction.
  - lia.
Qed.

Lemma getPollutionStatus_monotone_witness :
  JS.le (JS.lit 40 0) (JS.lit 60 0) = true /\
  JS.le (JS.lit 5 1) (JS.lit 5 1) = true /\
  JS.le (JS.lit 1 0) (JS.lit 4 0) = true /\
  severity (fst (getPollutionStatus (JS.lit 40 0) (JS.lit 5 1) (JS.lit 1 0)))
  <= severity (fst (getPollutionStatus (JS.lit 60 0) (JS.lit 5 1) (JS.lit 4 0))).
Proof.
  assert (H1 : JS.le (JS.lit 40 0) (JS.lit 60 0) = true) by (vm_compute; reflexivity).
  assert (H2 : JS.le (JS.lit 5 1) (JS.lit 5 1) = true) by (vm_compute; reflexivity).
  assert (H3 : JS.le (JS.lit 1 0) (JS.lit 4 0) = true) by (vm_compute; reflexivity).
  exact (conj H1 (conj H2 (conj H3 (getPollutionStatus_monotone _ _ _ _ _ _ H1 H2 H3)))).
Defined.

(** ** The critical-metal finder on every input *)

Section CriticalMetalScan.

Local Open Scope list_scope.

Variable metals : MetalConcentrations.

Lemma js_lt_irrefl (x : JS.number) : JS.lt x x = false.
Proof.
  destruct (JS.lt x x) eqn:E; [|reflexivity].
  apply js_lt_compare in E. pose proof (SFcompare_antisym _ _ _ E) as E'.
  rewrite E in E'. discriminate E'.
Qed.

(** A ratio not above the maximum is not above a larger maximum. *)
Lemma not_above_larger (r m m' : JS.number) :
  JS.isNaN m = false -> JS.gt r m = false -> JS.lt m m' = true -> JS.gt r m' = false.
Proof.
  intros Hm Hr Hlt. destruct (JS.isNaN r) eqn:Er.
  - rewrite (js_isNaN_eq _ Er). apply js_gt_NaN_l.
  - apply js_le_not_gt, js_lt_le.
    exact (js_le_lt_trans _ _ _ (js_not_gt_le _ _ Er Hm Hr) Hlt).
Qed.

Lemma scan_state_step (scanned : list MetalKey) (st : JS.number * string) (k : MetalKey) :
  scan_state metals scanned st ->
  scan_state metals (scanned ++ [k]) (getMostCriticalMetal_step metals st k).
Proof.
  destruct st as [maxRatio criticalMetal]. unfold getMostCriticalMetal_step.
  change (getMetal metals k / STANDARDS k)%js with (Spec.exceedance metals k).
  intros (Hpos & Hmax & Hsel). cbn [fst snd] in *.
  pose proof (js_le_isNaN_r _ _ Hpos) as Hnan.
  destruct (JS.gt (Spec.exceedance metals k) maxRatio) eqn:E; cbn [fst snd].
  - split; [exact (js_lt_le _ _ (js_le_lt_trans _ _ _ Hpos E))|]. split.
    + intros j Hj. apply in_app_or in Hj as [Hj|[<-|[]]].
      * exact (not_above_larger _ _ _ Hnan (Hmax j Hj) E).
      * apply js_lt_irrefl.
    + right. exists k. split; [apply in_or_app; right; left; reflexivity|]. auto.
  - split; [exact Hpos|]. split.
    + intros j Hj. apply in_app_or in Hj as [Hj|[<-|[]]]; [now apply Hmax | exact E].
    + destruct Hsel as [Hsel|(k0 & Hk0 & Hsel)]; [left; exact Hsel|].
      right. exists k0. split; [apply in_or_app; left; exact Hk0 | exact Hsel].
Qed.

Lemma scan_state_loop (keys : list MetalKey) :
  forall scanned st,
    scan_state metals scanned st ->
    scan_state metals (scanned ++ keys)
      (fold_left (getMostCriticalMetal_step metals) keys st).
Proof.
  induction keys as [|k keys IH]; intros scanned st H; simpl.
  - rewrite List.app_nil_r. exact H.
  - change (k :: keys) with ([k] ++ keys). rewrite List.app_assoc.
    apply IH, scan_state_step, H.
Qed.

Lemma scan_state_final :
  scan_state metals Spec.metals_in_order
    (fold_left (getMostCriticalMetal_step metals) (Object_keys metals) (JS.lit 0 0, "lead")).
Proof.
  apply (scan_state_loop (Object_keys metals) [] (JS.lit 0 0, "lead")).
  split; [reflexivity|]. split; [intros j []|]. left. split; reflexivity.
Qed.

(** With no ratio above the running maximum the loop changes nothing. *)
Lemma scan_unchanged (keys : list MetalKey) (st : JS.number * string) :
  (forall k, JS.gt (Spec.exceedance metals k) (fst st) = false) ->
  fold_left (getMostCriticalMetal_step metals) keys st = st.
Proof.
  intros H. induction keys as [|k keys IH]; [reflexivity|].
  cbn [fold_left]. destruct st as [maxRatio criticalMetal]. cbn [fst] in H.
  unfold getMostCriticalMetal_step at 2.
  change (getMetal metals k / STANDARDS k)%js with (Spec.exceedance metals k).
  rewrite H. exact IH.
Qed.

End CriticalMetalScan.

Section RoundedSign.

(** Rounding a number that is at least 0 to some decimals gives a number
    that is at least 0. *)
Lemma toFixed_nonneg (x : JS.number) (digits : nat) :
  JS.le JS.pos_zero x = true ->
  JS.le JS.pos_zero (JS.Number (JS.toFixed x digits)) = true.
Proof.
  destruct x as [s|s| |s m e]; intros Hx.
  - reflexivity.
  - destruct s; [discriminate Hx|reflexivity].
  - discriminate Hx.
  - destruct s; [discriminate Hx|]. unfold JS.toFixed.
    destruct (JS.at_least_1e21 m e); [exact Hx|].
    cbn [JS.Number]. destruct (Z.to_N _) as [|p]; [reflexivity|].
    unfold JS.nearest.
    destruct (js_div_finite_signed false false p (Z.to_pos (10 ^ Z.of_nat digits)) 0 0)
      as [H|[H|(m' & e' & H)]];
      unfold JS.div in H; rewrite H; reflexivity.
Qed.

End RoundedSign.

(** X4.  On every input, NaN and negative concentrations included,
    [exceedsStandard] is true exactly when some metal's ratio Ci/Si is
    above 1. *)
Theorem exceedsStandard_iff (metals : MetalConcentrations) :
  exceedsStandard (getMostCriticalMetal metals) = true <->
  exists k, JS.gt (Spec.exceedance metals k) (JS.lit 1 0) = true.
Proof.
  pose proof (scan_state_final metals) as (Hpos & Hmax & Hsel).
  unfold getMostCriticalMetal. change (properties (literal metals)) with metals.
  destruct (fold_left _ _ _) as [maxRatio criticalMetal]. cbn [fst snd exceedsStandard] in *.
  split.
  - intros H. destruct Hsel as [[-> _]|(k & _ & -> & _)].
    + vm_compute in H. discriminate H.
    + exists k. exact H.
  - intros [k Hk]. rewrite js_gt_lt in *.
    apply (js_lt_le_trans _ _ _ Hk). apply js_not_gt_le.
    + exact (js_lt_isNaN_r _ _ Hk).
    + exact (js_le_isNaN_r _ _ Hpos).
    + apply Hmax. unfold Spec.metals_in_order. destruct k; simpl; tauto.
Qed.

(** X5.  On every input the reported ratio is a number at least 0, never
    NaN and never negative; and when no metal's ratio is above 0 (zeros,
    negative values, NaN) the result is Lead, 0, false. *)
Theorem getMostCriticalMetal_ratio_nonnegative (metals : MetalConcentrations) :
  JS.le JS.pos_zero (ratio (getMostCriticalMetal metals)) = true /\
  JS.isNaN (ratio (getMostCriticalMetal metals)) = false /\
  ((forall k, JS.gt (Spec.exceedance metals k) JS.pos_zero = false) ->
   getMostCriticalMetal metals
   = {| metal := "Lead"; ratio := JS.pos_zero; exceedsStandard := false |}).
Proof.
  assert (H : JS.le JS.pos_zero (ratio (getMostCriticalMetal metals)) = true).
  { pose proof (scan_state_final metals) as (Hpos & _).
    unfold getMostCriticalMetal. change (properties (literal metals)) with metals.
    destruct (fold_left _ _ _) as [maxRatio criticalMetal]. cbn [fst ratio] in *.
    apply toFixed_nonneg, Hpos. }
  split; [exact H|]. split; [exact (js_le_isNaN_r _ _ H)|].
  intros Hnone. unfold getMostCriticalMetal. change (properties (literal metals)) with metals.
  rewrite (scan_unchanged metals (Object_keys metals) (JS.lit 0 0, "lead") Hnone).
  reflexivity.
Qed.

(** Four NaN concentrations: no ratio is above 0. *)
Lemma getMostCriticalMetal_ratio_nonnegative_witness :
  let metals := {| lead := JS.NaN; cadmium := JS.NaN; arsenic := JS.NaN; chromium := JS.NaN |} in
  (forall k, JS.gt (Spec.exceedance metals k) JS.pos_zero = false) /\
  metal (getMostCriticalMetal metals) = "Lead".
Proof.
  cbv zeta.
  set (metals := {| lead := JS.NaN; cadmium := JS.NaN; arsenic := JS.NaN; chromium := JS.NaN |}).
  assert (H : forall k, JS.gt (Spec.exceedance metals k) JS.pos_zero = false)
    by (intros []; reflexivity).
  destruct (getMostCriticalMetal_ratio_nonnegative metals) as (_ & _ & Hnone).
  split; [exact H|]. rewrite (Hnone H). reflexivity.
Defined.

(** ** More on the dataset aggregator *)

Section MathMax.

Local Open Scope list_scope.

Lemma js_le_trans (x y z : JS.number) :
  JS.le x y = true -> JS.le y z = true -> JS.le x z = true.
Proof.
  intros Hxy Hyz. apply js_le_compare in Hyz as [H|H].
  - apply js_lt_le. apply (js_le_lt_trans _ _ _ Hxy). apply js_lt_compare, H.
  - unfold JS.le, SFleb in *. rewrite <- (SFcompare_Eq_r _ _ _ H). exact Hxy.
Qed.

(** On two numbers [max_step] answers one of them, the other being at most
    it. *)
Lemma max_step_cases (highest x : JS.number) :
  JS.isNaN highest = false -> JS.isNaN x = false ->
  (JS.max_step highest x = x /\ JS.le highest x = true) \/
  (JS.max_step highest x = highest /\ JS.le x highest = true).
Proof.
  intros Hh Hx.
  assert (Hgen : (if JS.gt x highest then x else highest) = x /\ JS.le highest x = true \/
                 (if JS.gt x highest then x else highest) = highest /\ JS.le x highest = true).
  { destruct (JS.gt x highest) eqn:E.
    - left. split; [reflexivity|]. apply js_lt_le. exact E.
    - right. split; [reflexivity|]. now apply js_not_gt_le. }
  unfold JS.max_step. rewrite Hh, Hx.
  destruct x as [[|]|sx| |sx mx ex]; try exact Hgen; try discriminate Hx.
  destruct highest as [[|]|sh| |sh mh eh]; try exact Hgen.
  left. split; reflexivity.
Qed.

Lemma max_step_NaN_l (x : JS.number) : JS.max_step JS.NaN x = JS.NaN.
Proof. reflexivity. Qed.

Lemma max_step_NaN_r (highest : JS.number) : JS.max_step highest JS.NaN = JS.NaN.
Proof. unfold JS.max_step. destruct (JS.isNaN highest); reflexivity. Qed.

Lemma max_from_NaN (args : list JS.number) : fold_left JS.max_step args JS.NaN = JS.NaN.
Proof. induction args as [|x args IH]; [reflexivity|exact IH]. Qed.

Lemma max_with_NaN (args : list JS.number) :
  forall highest, In JS.NaN args -> fold_left JS.max_step args highest = JS.NaN.
Proof.
  induction args as [|x args IH]; intros highest H; [destruct H|].
  cbn [fold_left]. destruct H as [->|H].
  - rewrite max_step_NaN_r. apply max_from_NaN.
  - apply IH, H.
Qed.

Lemma greatest_of_step (seen : list JS.number) (highest x : JS.number) :
  JS.isNaN x = false -> greatest_of seen highest ->
  greatest_of (seen ++ [x]) (JS.max_step highest x).
Proof.
  intros Hx (Hh & Hin & Hmax).
  destruct (max_step_cases highest x Hh Hx) as [[-> Hle]|[-> Hle]].
  - split; [exact Hx|]. split; [apply in_or_app; right; left; reflexivity|].
    intros y Hy. apply in_app_or in Hy as [Hy|[<-|[]]].
    + exact (js_le_trans _ _ _ (Hmax y Hy) Hle).
    + now apply js_le_refl.
  - split; [exact Hh|]. split; [apply in_or_app; left; exact Hin|].
    intros y Hy. apply in_app_or in Hy as [Hy|[<-|[]]]; [now apply Hmax | exact Hle].
Qed.

Lemma greatest_of_loop (args : list JS.number) :
  forall seen highest,
    (forall x, In x args -> JS.isNaN x = false) ->
    greatest_of seen highest ->
    greatest_of (seen ++ args) (fold_left JS.max_step args highest).
Proof.
  induction args as [|x args IH]; intros seen highest Hargs H; simpl.
  - rewrite List.app_nil_r. exact H.
  - change (x :: args) with ([x] ++ args). rewrite List.app_assoc.
    apply IH; [intros y Hy; apply Hargs; right; exact Hy|].
    apply greatest_of_step; [apply Hargs; left; reflexivity | exact H].
Qed.

Lemma greatest_of_first (x : JS.number) :
  JS.isNaN x = false -> greatest_of [x] (JS.max_step JS.neg_Infinity x).
Proof.
  intros Hx.
  assert (E : JS.max_step JS.neg_Infinity x = x).
  { destruct x as [[|]|[|]| |[|] m e]; reflexivity. }
  rewrite E. split; [exact Hx|]. split; [left; reflexivity|].
  intros y [<-|[]]. now apply js_le_refl.
Qed.

(** [Math.max] of at least one argument, none NaN, is one of the arguments
    and at least each of them. *)
Lemma Math_max_greatest (args : list JS.number) :
  args <> [] -> (forall x, In x args -> JS.isNaN x = false) ->
  greatest_of args (JS.Math_max args).
Proof.
  destruct args as [|x args]; [congruence|]. intros _ Hargs.
  unfold JS.Math_max. cbn [fold_left].
  apply (greatest_of_loop args [x]).
  - intros y Hy. apply Hargs. right. exact Hy.
  - apply greatest_of_first, Hargs. left. reflexivity.
Qed.

Lemma rounded_maximum_of_field (field : PollutionIndices -> JS.number)
    (results : list PollutionIndices) :
  results <> [] -> (forall r, In r results -> JS.isNaN (field r) = false) ->
  rounded_maximum field results
    (JS.Number (JS.toFixed (JS.Math_max (List.map field results)) 2)).
Proof.
  intros Hne Hnum.
  destruct (Math_max_greatest (List.map field results)) as (_ & Hin & Hmax).
  - destruct results; [congruence|discriminate].
  - intros x Hx. apply in_map_iff in Hx as (r & <- & Hr). now apply Hnum.
  - apply in_map_iff in Hin as (r & Er & Hr). exists r. split; [exact Hr|].
    rewrite Er. split; [reflexivity|].
    intros r' Hr'. apply Hmax, in_map, Hr'.
Qed.

Lemma reduce_sum (field : PollutionIndices -> JS.number) (results : list PollutionIndices) :
  forall acc,
    fold_left (fun sum r => (sum + field r)%js) results acc
    = fold_left JS.add (List.map field results) acc.
Proof.
  induction results as [|r results IH]; intros acc; [reflexivity|].
  cbn [fold_left List.map]. apply IH.
Qed.

Lemma average_NaN (field : PollutionIndices -> JS.number)
    (results : list PollutionIndices) (r : PollutionIndices) (total : JS.number) :
  In r results -> JS.isNaN (field r) = true ->
  JS.Number (JS.toFixed
    (fold_left (fun sum r => (sum + field r)%js) results (JS.lit 0 0) / total)%js 2) = JS.NaN.
Proof.
  intros Hr Hnan. rewrite reduce_sum, sum_with_NaN; [reflexivity|].
  rewrite <- (js_isNaN_eq _ Hnan). apply in_map, Hr.
Qed.

Lemma maximum_NaN (field : PollutionIndices -> JS.number)
    (results : list PollutionIndices) (r : PollutionIndices) :
  In r results -> JS.isNaN (field r) = true ->
  JS.Number (JS.toFixed (JS.Math_max (List.map field results)) 2) = JS.NaN.
Proof.
  intros Hr Hnan. unfold JS.Math_max. rewrite max_with_NaN; [reflexivity|].
  rewrite <- (js_isNaN_eq _ Hnan). apply in_map, Hr.
Qed.

End MathMax.

(** X6.  For a non-empty collection with no NaN index, each stored maximum
    is the 2-decimal rounding of the index of one of the results, and that
    result's index is at least the index of every result. *)
Theorem generateSummaryStats_maximums (results : list PollutionIndices) :
  results <> [] ->
  (forall r, In r results -> indices_are_numbers r) ->
  exists s,
    generateSummaryStats results = JS.Return s /\
    rounded_maximum hpi results (Summary.hpi (Summary.maximums s)) /\
    rounded_maximum mi results (Summary.mi (Summary.maximums s)) /\
    rounded_maximum cd results (Summary.cd (Summary.maximums s)).
Proof.
  intros Hne Hnum. unfold generateSummaryStats. eexists. split; [reflexivity|].
  cbn [Summary.maximums Summary.hpi Summary.mi Summary.cd].
  repeat split; apply rounded_maximum_of_field; try exact Hne;
    intros r Hr; apply (Hnum r Hr).
Qed.

Lemma generateSummaryStats_maximums_witness :
  one_of_each <> [] /\
  (forall r, In r one_of_each -> indices_are_numbers r) /\
  exists s,
    generateSummaryStats one_of_each = JS.Return s /\
    rounded_maximum cd one_of_each (Summary.cd (Summary.maximums s)).
Proof.
  assert (Hne : one_of_each <> []) by (unfold one_of_each; discriminate).
  assert (Hnum : forall r, In r one_of_each -> indices_are_numbers r).
  { intros r [<-|[<-|[<-|[]]]]; vm_compute; repeat split; reflexivity. }
  split; [exact Hne|]. split; [exact Hnum|].
  destruct (generateSummaryStats_maximums one_of_each Hne Hnum) as (s & Hs & _ & _ & Hcd).
  exists s. exact (conj Hs Hcd).
Defined.

(** X7.  One result with a NaN index makes the stored average and the
    stored maximum of that index NaN for the whole collection. *)
Theorem generateSummaryStats_NaN (results : list PollutionIndices) (r : PollutionIndices) :
  In r results ->
  exists s,
    generateSummaryStats results = JS.Return s /\
    (JS.isNaN (hpi r) = true ->
     Summary.hpi (Summary.averages s) = JS.NaN /\ Summary.hpi (Summary.maximums s) = JS.NaN) /\
    (JS.isNaN (mi r) = true ->
     Summary.mi (Summary.averages s) = JS.NaN /\ Summary.mi (Summary.maximums s) = JS.NaN) /\
    (JS.isNaN (cd r) = true ->
     Summary.cd (Summary.averages s) = JS.NaN /\ Summary.cd (Summary.maximums s) = JS.NaN).
Proof.
  intros Hr. unfold generateSummaryStats. eexists. split; [reflexivity|].
  cbn [Summary.averages Summary.maximums Summary.hpi Summary.mi Summary.cd].
  repeat split; first [now apply (average_NaN _ _ r) | now apply (maximum_NaN _ _ r)].
Qed.

(** A dataset with one sample whose concentrations are NaN. *)
Lemma generateSummaryStats_NaN_witness :
  let nan_sample :=
    calculatePollutionIndices
      {| lead := JS.NaN; cadmium := JS.NaN; arsenic := JS.NaN; chromium := JS.NaN |} in
  let results := calculatePollutionIndices end_to_end_example :: nan_sample :: nil in
  In nan_sample results /\ JS.isNaN (cd nan_sample) = true /\
  exists s,
    generateSummaryStats results = JS.Return s /\
    Summary.cd (Summary.averages s) = JS.NaN /\ Summary.cd (Summary.maximums s) = JS.NaN.
Proof.
  cbv zeta.
  set (nan_sample := calculatePollutionIndices
      {| lead := JS.NaN; cadmium := JS.NaN; arsenic := JS.NaN; chromium := JS.NaN |}).
  set (results := calculatePollutionIndices end_to_end_example :: nan_sample :: nil).
  assert (Hin : In nan_sample results) by (right; left; reflexivity).
  assert (Hnan : JS.isNaN (cd nan_sample) = true) by reflexivity.
  destruct (generateSummaryStats_NaN results nan_sample Hin) as (s & Hs & _ & _ & Hcd).
  split; [exact Hin|]. split; [exact Hnan|]. exists s. exact (conj Hs (Hcd Hnan)).
Defined.

(** ** Counts converted to numbers *)

Section Counts.

Local Open Scope Z_scope.

Lemma digits2_pos_bounds (p : positive) :
  2 ^ (Z.pos (digits2_pos p) - 1) <= Z.pos p < 2 ^ Z.pos (digits2_pos p).
Proof.
  induction p as [p IH|p IH|]; cbn [digits2_pos].
  - rewrite Pos2Z.inj_succ. change (Z.pos p~1) with (2 * Z.pos p + 1).
    replace (Z.succ (Z.pos (digits2_pos p)) - 1) with (Z.succ (Z.pos (digits2_pos p) - 1)) by lia.
    rewrite !Z.pow_succ_r by lia. lia.
  - rewrite Pos2Z.inj_succ. change (Z.pos p~0) with (2 * Z.pos p).
    replace (Z.succ (Z.pos (digits2_pos p)) - 1) with (Z.succ (Z.pos (digits2_pos p) - 1)) by lia.
    rewrite !Z.pow_succ_r by lia. lia.
  - change (2 ^ (1 - 1) <= 1 < 2 ^ 1). rewrite Z.pow_1_r. change (1 - 1) with 0.
    rewrite Z.pow_0_r. lia.
Qed.

Lemma digits2_pos_shift (p k : positive) :
  digits2_pos (Pos.iter xO p k) = (digits2_pos p + k)%positive.
Proof.
  induction k as [|k IH] using Pos.peano_ind.
  - cbn [Pos.iter digits2_pos]. lia.
  - rewrite Pos.iter_succ. cbn [digits2_pos]. rewrite IH. lia.
Qed.

(** A mantissa of 53 bits with an exponent in range is left as it is by
    the rounding step. *)
Lemma binary_round_aux_exact (s : bool) (m : positive) (e : Z) :
  digits2_pos m = 53%positive -> -1074 <= e <= 971 ->
  binary_round_aux JS.prec JS.emax s (Z.pos m) e loc_Exact = S754_finite s m e.
Proof.
  intros Hd He.
  assert (Hshift : shr_fexp JS.prec JS.emax (Z.pos m) e loc_Exact
                   = ({| shr_m := Z.pos m; shr_r := false; shr_s := false |}, e)).
  { unfold shr_fexp, fexp, emin, JS.prec, JS.emax. cbn [Zdigits2 shr_record_of_loc].
    rewrite Hd.
    replace (Z.max (53 + e - 53) (3 - 1024 - 53) - e) with 0 by lia. reflexivity. }
  unfold binary_round_aux. rewrite Hshift.
  cbn [shr_m loc_of_shr_record round_nearest_even]. rewrite Hshift. cbn [shr_m].
  replace (e <=? JS.emax - JS.prec) with true; [reflexivity|].
  symmetry. apply Z.leb_le. unfold JS.emax, JS.prec. lia.
Qed.

(** A positive integer below 2^53 is a finite positive number with a
    mantissa of 53 bits. *)
Lemma of_Z_canonical (n : Z) :
  0 < n < 2 ^ 53 ->
  exists m e, JS.of_Z n = S754_finite false m e /\ digits2_pos m = 53%positive.
Proof.
  intros Hn. destruct n as [|p|p]; try lia.
  pose proof (digits2_pos_bounds p) as Hb.
  assert (Hd : Z.pos (digits2_pos p) <= 53).
  { destruct (Z_le_gt_dec (Z.pos (digits2_pos p)) 53) as [H|H]; [exact H|].
    exfalso. assert (2 ^ 53 <= 2 ^ (Z.pos (digits2_pos p) - 1))
      by (apply Z.pow_le_mono_r; lia). lia. }
  unfold JS.of_Z, binary_normalize, binary_round, shl_align, fexp, emin, JS.prec, JS.emax.
  replace (Z.max (Z.pos (digits2_pos p) + 0 - 53) (3 - 1024 - 53) - 0)
    with (Z.pos (digits2_pos p) - 53) by lia.
  replace (Z.max (Z.pos (digits2_pos p) + 0 - 53) (3 - 1024 - 53))
    with (Z.pos (digits2_pos p) - 53) by lia.
  destruct (Z.pos (digits2_pos p) - 53) as [|k|k] eqn:Ek; try lia.
  - exists p, 0. assert (Hp : digits2_pos p = 53%positive) by lia.
    split; [|exact Hp]. now apply binary_round_aux_exact.
  - exists (Pos.iter xO p k), (Z.neg k).
    assert (Hp : digits2_pos (Pos.iter xO p k) = 53%positive)
      by (rewrite digits2_pos_shift; lia).
    split; [|exact Hp]. apply binary_round_aux_exact; [exact Hp | lia].
Qed.

(** A finite number with a mantissa of 53 bits divided by itself is 1. *)
Lemma js_div_self (m : positive) (e : Z) :
  digits2_pos m = 53%positive ->
  JS.div (S754_finite false m e) (S754_finite false m e) = JS.lit 1 0.
Proof.
  intros Hd. unfold JS.div, SFdiv, SFdiv_core_binary. cbn [Zdigits2]. rewrite Hd.
  rewrite !Z.sub_diag.
  change (Z.min (fexp JS.prec JS.emax 0) 0) with (-53).
  change (0 - -53) with 53.
  cbv beta iota zeta.
  rewrite Z.shiftl_mul_pow2 by lia.
  assert (Hdiv : Z.div_eucl (Z.pos m * 2 ^ 53) (Z.pos m) = (2 ^ 53, 0)).
  { pose proof (Z_div_mod (Z.pos m * 2 ^ 53) (Z.pos m) eq_refl) as H.
    destruct (Z.div_eucl (Z.pos m * 2 ^ 53) (Z.pos m)) as [q r].
    destruct H as [H1 H2]. assert (q = 2 ^ 53) by nia. subst q. f_equal. lia. }
  rewrite Hdiv.
  assert (Hloc : new_location (Z.pos m) 0 = loc_Exact).
  { unfold new_location. destruct (Z.even (Z.pos m)); reflexivity. }
  rewrite Hloc. vm_compute. reflexivity.
Qed.

End Counts.

Section Percentages.

Local Open Scope list_scope.

(** The percentage stored for a tier with [n] results out of [total]. *)
Lemma percentage_full (total : nat) :
  (0 < Z.of_nat total < 2 ^ 53)%Z -> stored_percentage total total = JS.lit 100 0.
Proof.
  intros H. unfold stored_percentage, JS.of_nat.
  destruct (of_Z_canonical _ H) as (m & e & -> & Hd).
  rewrite (js_div_self m e Hd). vm_compute. reflexivity.
Qed.

Lemma percentage_none (total : nat) :
  (0 < Z.of_nat total < 2 ^ 53)%Z -> stored_percentage 0 total = JS.pos_zero.
Proof.
  intros H. unfold stored_percentage, JS.of_nat.
  destruct (of_Z_canonical _ H) as (m & e & -> & Hd). reflexivity.
Qed.

Lemma generateSummaryStats_tier (results : list PollutionIndices) (t : Status) :
  exists s,
    generateSummaryStats results = JS.Return s /\
    Summary.count (tier_of t (Summary.distribution s)) = tier_count t results /\
    Summary.percentage (tier_of t (Summary.distribution s))
    = stored_percentage (tier_count t results) (List.length results).
Proof.
  unfold generateSummaryStats. eexists. split; [reflexivity|].
  cbn [Summary.distribution]. destruct t; split; reflexivity.
Qed.

Lemma tier_count_Permutation (t : Status) (results results' : list PollutionIndices) :
  Permutation results results' -> tier_count t results = tier_count t results'.
Proof.
  unfold tier_count. induction 1 as [|r l l' _ IH|r r' l|l l' l'' _ IH1 _ IH2].
  - reflexivity.
  - cbn [List.filter]. destruct (Status_eqb (status r) t); cbn [List.length]; lia.
  - cbn [List.filter].
    destruct (Status_eqb (status r) t), (Status_eqb (status r') t); reflexivity.
  - lia.
Qed.

End Percentages.

(** X8.  In a collection of at least one result (and fewer than 2^53), a
    tier that holds every result has percentage exactly 100 and a tier that
    holds none has percentage exactly 0. *)
Theorem generateSummaryStats_full_and_empty_tiers
    (results : list PollutionIndices) (t : Status) :
  (0 < Z.of_nat (List.length results) < 2 ^ 53)%Z ->
  exists s,
    generateSummaryStats results = JS.Return s /\
    Summary.count (tier_of t (Summary.distribution s)) = tier_count t results /\
    (tier_count t results = List.length results ->
     Summary.percentage (tier_of t (Summary.distribution s)) = JS.lit 100 0) /\
    (tier_count t results = 0%nat ->
     Summary.percentage (tier_of t (Summary.distribution s)) = JS.pos_zero).
Proof.
  intros H. destruct (generateSummaryStats_tier results t) as (s & Hs & Hc & Hp).
  exists s. split; [exact Hs|]. split; [exact Hc|]. rewrite Hp. split; intros ->.
  - now apply percentage_full.
  - now apply percentage_none.
Qed.

Lemma generateSummaryStats_full_and_empty_tiers_witness :
  let results := calculatePollutionIndices end_to_end_example
                 :: calculatePollutionIndices at_the_standards :: nil in
  (0 < Z.of_nat (List.length results) < 2 ^ 53)%Z /\
  exists s,
    generateSummaryStats results = JS.Return s /\
    Summary.percentage (Summary.danger (Summary.distribution s)) = JS.lit 100 0.
Proof.
  cbv zeta.
  set (results := calculatePollutionIndices end_to_end_example
                  :: calculatePollutionIndices at_the_standards :: nil).
  assert (H : (0 < Z.of_nat (List.length results) < 2 ^ 53)%Z) by (vm_compute; split; reflexivity).
  destruct (generateSummaryStats_full_and_empty_tiers results danger H)
    as (s & Hs & _ & Hfull & _).
  split; [exact H|]. exists s. split; [exact Hs|].
  apply Hfull. vm_compute. reflexivity.
Defined.

(** X9.  The total, the three counts and the three percentages do not
    depend on the order of the results. *)
Theorem generateSummaryStats_order (results results' : list PollutionIndices) :
  Permutation results results' ->
  exists s s',
    generateSummaryStats results = JS.Return s /\
    generateSummaryStats results' = JS.Return s' /\
    Summary.total s = Summary.total s' /\
    Summary.distribution s = Summary.distribution s'.
Proof.
  intros H. unfold generateSummaryStats. do 2 eexists.
  split; [reflexivity|]. split; [reflexivity|].
  cbn [Summary.total Summary.distribution].
  fold (tier_count safe results) (tier_count moderate results) (tier_count danger results).
  fold (tier_count safe results') (tier_count moderate results') (tier_count danger results').
  rewrite !(tier_count_Permutation _ _ _ H), (Permutation_length H). split; reflexivity.
Qed.

Lemma generateSummaryStats_order_witness :
  Permutation one_of_each (List.rev one_of_each) /\
  exists s s',
    generateSummaryStats one_of_each = JS.Return s /\
    generateSummaryStats (List.rev one_of_each) = JS.Return s' /\
    Summary.distribution s = Summary.distribution s'.
Proof.
  assert (H : Permutation one_of_each (List.rev one_of_each)) by apply Permutation_rev.
  destruct (generateSummaryStats_order _ _ H) as (s & s' & Hs & Hs' & _ & Hd).
  split; [exact H|]. exists s, s'. exact (conj Hs (conj Hs' Hd)).
Defined.

(** ** More on per-sample processing *)

Section SampleProcessorMore.

Lemma readNumber_indices_set (sample : SampleData) (v : JSValue) (field : string) :
  field <> "indices" -> readNumber (<["indices" := v]> sample) field = readNumber sample field.
Proof.
  intros H. unfold readNumber. rewrite lookup_insert_ne by congruence. reflexivity.
Qed.

Lemma metalConcentrations_of_indices_set (sample : SampleData) (v : JSValue) :
  metalConcentrations_of (<["indices" := v]> sample) = metalConcentrations_of sample.
Proof.
  unfold metalConcentrations_of. rewrite !readNumber_indices_set by discriminate.
  reflexivity.
Qed.

Lemma analyzeSample_again (sample : SampleData) :
  analyzeSample (analyzeSample sample) = analyzeSample sample.
Proof.
  unfold analyzeSample. cbv zeta.
  rewrite metalConcentrations_of_indices_set. apply insert_insert_eq.
Qed.

Lemma metalConcentrations_of_agree (sample sample' : SampleData) :
  (forall field, In field ["lead"; "cadmium"; "arsenic"; "chromium"] ->
     sample !! field = sample' !! field) ->
  metalConcentrations_of sample = metalConcentrations_of sample'.
Proof.
  intros H. unfold metalConcentrations_of, readNumber.
  rewrite (H "lead"), (H "cadmium"), (H "arsenic"), (H "chromium") by (simpl; tauto).
  reflexivity.
Qed.

End SampleProcessorMore.

(** X10.  Analysing again changes nothing: the results of [analyzeData],
    given back to [analyzeData], come out as they are; a property [indices]
    already on a sample is replaced by the freshly computed one. *)
Theorem analyzeData_again (uploadedData : list SampleData) :
  analyzeData (analyzeData uploadedData) = analyzeData uploadedData.
Proof.
  unfold analyzeData. rewrite List.map_map. apply List.map_ext.
  intros sample. apply analyzeSample_again.
Qed.

(** X11.  The indices of a result are determined by the four concentration
    properties alone: two samples that agree on lead, cadmium, arsenic and
    chromium get the same indices, whatever their identifier, coordinates
    or other properties. *)
Theorem analyzeSample_reads_concentrations_only (sample sample' : SampleData) :
  (forall field, In field ["lead"; "cadmium"; "arsenic"; "chromium"] ->
     sample !! field = sample' !! field) ->
  analyzeSample sample !! "indices" = analyzeSample sample' !! "indices".
Proof.
  intros H. unfold analyzeSample. rewrite !lookup_insert_eq.
  rewrite (metalConcentrations_of_agree sample sample' H). reflexivity.
Qed.

Lemma analyzeSample_reads_concentrations_only_witness :
  let moved := <["latitude" := VNumber (JS.lit 10 0)]> (<["sampleId" := VString "S2"]> sample_S1) in
  (forall field, In field ["lead"; "cadmium"; "arsenic"; "chromium"] ->
     sample_S1 !! field = moved !! field) /\
  analyzeSample sample_S1 !! "indices" = analyzeSample moved !! "indices".
Proof.
  cbv zeta.
  set (moved := <["latitude" := VNumber (JS.lit 10 0)]> (<["sampleId" := VString "S2"]> sample_S1)).
  assert (H : forall field, In field ["lead"; "cadmium"; "arsenic"; "chromium"] ->
                sample_S1 !! field = moved !! field).
  { intros field Hf. simpl in Hf.
    destruct Hf as [<-|[<-|[<-|[<-|[]]]]]; vm_compute; reflexivity. }
  exact (conj H (analyzeSample_reads_concentrations_only sample_S1 moved H)).
Defined.

(** ** The upload component *)

Section ParseCSVFacts.

Local Open Scope list_scope.

Lemma split_length (sep : ascii) (s : string) :
  List.length (Upload.split sep s) = S (count_char sep s).
Proof.
  induction s as [|c rest IH]; [reflexivity|].
  cbn [Upload.split count_char]. destruct (Ascii.eqb c sep).
  - cbn [List.length]. rewrite IH. reflexivity.
  - destruct (Upload.split sep rest) as [|piece pieces]; [discriminate IH|].
    cbn [List.length] in *. lia.
Qed.

Lemma removeQuotes_no_quote (s : string) :
  count_char Upload.quote (Upload.removeQuotes s) = 0.
Proof.
  induction s as [|c rest IH]; [reflexivity|].
  cbn [Upload.removeQuotes]. destruct (Ascii.eqb c Upload.quote) eqn:E; [exact IH|].
  cbn [count_char]. rewrite E, IH. reflexivity.
Qed.

Lemma forEach_from_dom (values : list string) (headers : list string) :
  forall index (row : gmap string string),
    dom (Upload.forEach_from
           (fun row header index => Upload.setProperty row header (Upload.cellAt values index))
           index headers row)
    = dom row ∪ list_to_set (List.filter (fun h => negb (String.eqb h "__proto__")) headers).
Proof.
  induction headers as [|h headers IH]; intros index row.
  - cbn. rewrite (right_id_L ∅ (∪)). reflexivity.
  - cbn [Upload.forEach_from List.filter]. rewrite IH. unfold Upload.setProperty.
    destruct (String.eqb h "__proto__"); cbn [negb].
    + reflexivity.
    + rewrite dom_insert_L. cbn [list_to_set].
      rewrite (comm_L (∪) {[h]} (dom row)), <- (assoc_L (∪)). reflexivity.
Qed.

Lemma forEach_from_lookup (values : list string) (headers : list string) :
  forall index (row : gmap string string) i h,
    NoDup headers -> headers !! i = Some h -> h <> "__proto__" ->
    Upload.forEach_from
      (fun row header index => Upload.setProperty row header (Upload.cellAt values index))
      index headers row !! h
    = Some (Upload.cellAt values (index + i)).
Proof.
  induction headers as [|h0 headers IH]; intros index row i h Hnd Hi Hh; [discriminate Hi|].
  apply NoDup_cons in Hnd as [Hnotin Hnd]. cbn [Upload.forEach_from].
  destruct i as [|i]; cbn in Hi.
  - injection Hi as ->.
    assert (Hkeep : forall hs idx (r : gmap string string),
               h ∉ hs -> Upload.forEach_from
                 (fun row header index => Upload.setProperty row header (Upload.cellAt values index))
                 idx hs r !! h = r !! h).
    { clear. induction hs as [|h1 hs IHhs]; intros idx r Hn; [reflexivity|].
      apply not_elem_of_cons in Hn as [Hne Hn].
      cbn [Upload.forEach_from]. rewrite IHhs by exact Hn.
      unfold Upload.setProperty. destruct (String.eqb h1 "__proto__"); [reflexivity|].
      apply lookup_insert_ne. congruence. }
    rewrite Hkeep by exact Hnotin. unfold Upload.setProperty.
    destruct (String.eqb h "__proto__") eqn:E; [apply String.eqb_eq in E; contradiction|].
    rewrite lookup_insert_eq. f_equal. f_equal. lia.
  - rewrite (IH (S index) _ i h Hnd Hi Hh). f_equal. f_equal. lia.
Qed.

End ParseCSVFacts.

(** X12.  [parseCSV] does not interpret quotes: a line is cut at every
    comma, quoted or not, so it has one more cell than it has commas; the
    quotes are then removed, and no cell holds a double-quote character. *)
Theorem parseCSV_cells (trim : string -> string) (line : string) :
  List.length (Upload.cells trim line) = S (count_char Upload.comma line) /\
  forall cell, In cell (Upload.cells trim line) -> count_char Upload.quote cell = 0.
Proof.
  unfold Upload.cells. split.
  - rewrite List.length_map. apply split_length.
  - intros cell H. apply in_map_iff in H as (v & <- & _). apply removeQuotes_no_quote.
Qed.

(** X13.  Every row [parseCSV] returns has the same keys, the header names
    (without [__proto__], which cannot be set this way); there is one row
    per non-blank line after the header line, and none when fewer than two
    lines are non-blank. *)
Theorem parseCSV_rows (trim : string -> string) (text : string) :
  let lines := Upload.nonBlankLines trim text in
  let headers := Upload.cells trim (List.hd EmptyString lines) in
  List.length (Upload.parseCSV trim text)
  = (if (List.length lines <? 2)%nat then 0 else List.length lines - 1) /\
  forall row, In row (Upload.parseCSV trim text) ->
    dom row = list_to_set (List.filter (fun h => negb (String.eqb h "__proto__")) headers).
Proof.
  cbv zeta. unfold Upload.parseCSV.
  destruct (List.length (Upload.nonBlankLines trim text) <? 2)%nat.
  - split; [reflexivity|]. intros row [].
  - split.
    + rewrite List.length_map. destruct (Upload.nonBlankLines trim text); cbn; lia.
    + intros row H. apply in_map_iff in H as (line & <- & _).
      unfold Upload.parseRow. rewrite forEach_from_dom, dom_empty_L.
      apply (left_id_L ∅ (∪)).
Qed.

(** X14.  With distinct header names, the value a row holds under the
    i-th header, when that header is not __proto__, is the i-th cell of its
    line, and the empty string when the line has fewer cells. *)
Theorem parseRow_lookup (trim : string -> string)
    (headers : list string) (line : string) (i : nat) (h : string) :
  NoDup headers -> headers !! i = Some h -> h <> "__proto__" ->
  Upload.parseRow trim headers line !! h
  = Some (List.nth i (Upload.cells trim line) EmptyString) /\
  (List.length (Upload.cells trim line) <= i ->
   Upload.parseRow trim headers line !! h = Some EmptyString).
Proof.
  intros Hnd Hi Hh. unfold Upload.parseRow.
  rewrite (forEach_from_lookup _ headers 0 ∅ i h Hnd Hi Hh). cbn [Nat.add].
  unfold Upload.cellAt. split; [reflexivity|].
  intros Hlen. rewrite List.nth_overflow by exact Hlen. reflexivity.
Qed.

Lemma parseRow_lookup_witness :
  let headers := ["Sample ID"; "Lead"] in
  NoDup headers /\ headers !! 1%nat = Some "Lead" /\ "Lead" <> "__proto__" /\
  Upload.parseRow trim_ascii headers "S1, 0.05" !! "Lead" = Some "0.05" /\
  Upload.parseRow trim_ascii headers "S1" !! "Lead" = Some EmptyString.
Proof.
  cbv zeta.
  assert (Hnd : NoDup ["Sample ID"; "Lead"]).
  { apply NoDup_cons. split.
    - intros H. apply list_elem_of_singleton in H. discriminate H.
    - apply NoDup_singleton. }
  assert (Hi : ["Sample ID"; "Lead"] !! 1%nat = Some "Lead") by reflexivity.
  assert (Hh : "Lead" <> "__proto__") by discriminate.
  destruct (parseRow_lookup trim_ascii _ "S1, 0.05" 1 "Lead" Hnd Hi Hh) as [H1 _].
  destruct (parseRow_lookup trim_ascii _ "S1" 1 "Lead" Hnd Hi Hh) as [_ H2].
  split; [exact Hnd|]. split; [exact Hi|]. split; [exact Hh|]. split.
  - rewrite H1. vm_compute. reflexivity.
  - apply H2. vm_compute. lia.
Defined.

Section ValidateDataFacts.

Local Open Scope list_scope.

Variable Row : Type.
Variable requiredFieldErrors : Row -> list string.
Variable buildSample : Row -> nat -> SampleData.

Local Abbreviation validateRow := (Upload.validateRow Row requiredFieldErrors buildSample).
Local Abbreviation validateData_step := (Upload.validateData_step Row requiredFieldErrors buildSample).
Local Abbreviation validateData := (Upload.validateData Row requiredFieldErrors buildSample).

(** A row yields either a sample that passed every check and no message,
    or no sample and at least one message. *)
Lemma validateRow_cases (row : Row) (index : nat) :
  (validateRow row index = (Some (buildSample row index), []) /\
   requiredFieldErrors row = [] /\
   Upload.rangeErrors (buildSample row index) = []) \/
  (exists rowErrors, validateRow row index = (None, rowErrors) /\ rowErrors <> []).
Proof.
  unfold Upload.validateRow.
  destruct (requiredFieldErrors row) as [|e es] eqn:Ereq; cbn [List.length Nat.eqb app].
  - destruct (Upload.rangeErrors (buildSample row index)) as [|e es] eqn:Erange;
      cbn [List.length Nat.eqb].
    + left. auto.
    + right. eexists. split; [reflexivity|discriminate].
  - right. eexists. split; [reflexivity|discriminate].
Qed.

Lemma validateData_step_cases (errors : list string) (validSamples : list SampleData)
    (row : Row) (index : nat) :
  (validateData_step (errors, validSamples) row index
   = (errors, validSamples ++ [buildSample row index]) /\
   Upload.rangeErrors (buildSample row index) = []) \/
  (exists message,
     validateData_step (errors, validSamples) row index
     = (errors ++ [message], validSamples)).
Proof.
  unfold Upload.validateData_step.
  destruct (validateRow_cases row index) as [(-> & _ & Hrange)|(rowErrors & -> & Hne)].
  - left. split; [reflexivity | exact Hrange].
  - right. destruct rowErrors as [|e es]; [congruence|]. eexists. reflexivity.
Qed.

(** The state of the loop over the rows: one sample or one error line per
    row seen, and every sample pushed passed the range checks. *)
Lemma validateData_loop (rows : list Row) :
  forall index errors validSamples,
    let state := Upload.forEach_from validateData_step index rows (errors, validSamples) in
    List.length (fst state) + List.length (snd state)
    = List.length errors + List.length validSamples + List.length rows /\
    List.length errors <= List.length (fst state) /\
    (forall sample, In sample (snd state) ->
       In sample validSamples \/ Upload.rangeErrors sample = []).
Proof.
  induction rows as [|row rows IH]; intros index errors validSamples; cbv zeta.
  - cbn [Upload.forEach_from fst snd List.length]. split; [lia|]. split; [lia|]. auto.
  - cbn [Upload.forEach_from].
    destruct (validateData_step_cases errors validSamples row index)
      as [[-> Hrange]|[message ->]].
    + specialize (IH (S index) errors (validSamples ++ [buildSample row index])).
      cbv zeta in IH. destruct IH as (Hlen & Hle & Hin).
      rewrite List.length_app in Hlen. cbn [List.length] in *.
      split; [lia|]. split; [exact Hle|].
      intros sample Hs. destruct (Hin sample Hs) as [H|H]; [|right; exact H].
      apply in_app_or in H as [H|[<-|[]]]; [left; exact H | right; exact Hrange].
    + specialize (IH (S index) (errors ++ [message]) validSamples).
      cbv zeta in IH. destruct IH as (Hlen & Hle & Hin).
      rewrite List.length_app in Hlen, Hle. cbn [List.length] in *.
      split; [lia|]. split; [lia|]. exact Hin.
Qed.

Lemma rangeErrors_nil (sample : SampleData) :
  Upload.rangeErrors sample = [] ->
  JS.gt (Upload.Math_abs (readNumber sample "latitude")) (JS.lit 90 0) = false /\
  JS.gt (Upload.Math_abs (readNumber sample "longitude")) (JS.lit 180 0) = false /\
  forall k, JS.lt (getMetal (metalConcentrations_of sample) k) (JS.lit 0 0) = false.
Proof.
  unfold Upload.rangeErrors.
  destruct (JS.gt (Upload.Math_abs (readNumber sample "latitude")) _); [discriminate|].
  destruct (JS.gt (Upload.Math_abs (readNumber sample "longitude")) _); [discriminate|].
  cbn [app].
  destruct (JS.lt (readNumber sample "lead") _) eqn:E1; [discriminate|].
  destruct (JS.lt (readNumber sample "cadmium") _) eqn:E2; [discriminate|].
  destruct (JS.lt (readNumber sample "arsenic") _) eqn:E3; [discriminate|].
  destruct (JS.lt (readNumber sample "chromium") _) eqn:E4; [discriminate|].
  intros _. repeat split. intros []; assumption.
Qed.

(** A single row with every required field that passes the range checks. *)
Lemma validateData_single (row : Row) :
  requiredFieldErrors row = [] ->
  Upload.rangeErrors (buildSample row 0) = [] ->
  validateData [row]
  = {| Upload.valid := true; Upload.errors := [];
       Upload.samples := [buildSample row 0] |}.
Proof.
  intros Hreq Hrange.
  unfold Upload.validateData. cbn [List.length Nat.eqb Upload.forEach_from].
  unfold Upload.validateData_step, Upload.validateRow.
  rewrite Hreq. cbn [List.length Nat.eqb app]. rewrite Hrange. reflexivity.
Qed.

End ValidateDataFacts.

(** X15.  [validateData] rejects an empty array with the single message
    "File is empty or invalid".  Otherwise every row gives exactly one
    sample or one error line; the result is valid exactly when every row
    gave a sample, and a valid result therefore has at least one sample. *)
Theorem validateData_accounting (Row : Type)
    (requiredFieldErrors : Row -> list string) (buildSample : Row -> nat -> SampleData)
    (data : list Row) :
  let result := Upload.validateData Row requiredFieldErrors buildSample data in
  (data = [] ->
   result = {| Upload.valid := false;
               Upload.errors := ["File is empty or invalid"];
               Upload.samples := [] |}) /\
  (data <> [] ->
   List.length (Upload.samples result) + List.length (Upload.errors result)
   = List.length data /\
   (Upload.valid result = true <->
    List.length (Upload.samples result) = List.length data) /\
   (Upload.valid result = true -> Upload.samples result <> [])).
Proof.
  cbv zeta. split; [intros ->; reflexivity|].
  intros Hne. unfold Upload.validateData.
  destruct data as [|row rows]; [congruence|]. cbn [List.length Nat.eqb].
  pose proof (validateData_loop Row requiredFieldErrors buildSample (row :: rows) 0 [] [])
    as H. cbv zeta in H.
  destruct (Upload.forEach_from _ 0 (row :: rows) ([], [])) as [errors validSamples].
  cbn [fst snd List.length Upload.valid Upload.errors Upload.samples] in *.
  destruct H as (Hlen & _ & _).
  split; [lia|]. split.
  - rewrite Nat.eqb_eq. lia.
  - rewrite Nat.eqb_eq. intros H0 ->. cbn [List.length] in Hlen. lia.
Qed.

Lemma validateData_accounting_witness :
  let result := Upload.validateData bool (fun _ => []) (fun _ _ => sample_S1) [true; false] in
  [true; false] <> [] /\ Upload.valid result = true /\ List.length (Upload.samples result) = 2.
Proof.
  cbv zeta.
  assert (Hne : [true; false] <> []) by discriminate.
  destruct (validateData_accounting bool (fun _ => []) (fun _ _ => sample_S1) [true; false])
    as [_ H].
  destruct (H Hne) as (_ & Hvalid & _).
  assert (Hv : Upload.valid (Upload.validateData bool (fun _ => [])
                               (fun _ _ => sample_S1) [true; false]) = true)
    by (vm_compute; reflexivity).
  split; [exact Hne|]. split; [exact Hv|]. apply Hvalid, Hv.
Defined.

(** X16.  Every sample [validateData] returns passed the range checks:
    its latitude is not beyond 90 and its longitude not beyond 180 in
    absolute value, and no concentration is below 0.  If none of its
    concentrations is NaN they are all at least 0, which is the
    precondition of the index formulas. *)
Theorem validateData_samples_in_range (Row : Type)
    (requiredFieldErrors : Row -> list string) (buildSample : Row -> nat -> SampleData)
    (data : list Row) (sample : SampleData) :
  In sample (Upload.samples (Upload.validateData Row requiredFieldErrors buildSample data)) ->
  Upload.rangeErrors sample = [] /\
  JS.gt (Upload.Math_abs (readNumber sample "latitude")) (JS.lit 90 0) = false /\
  JS.gt (Upload.Math_abs (readNumber sample "longitude")) (JS.lit 180 0) = false /\
  (forall k, JS.lt (getMetal (metalConcentrations_of sample) k) (JS.lit 0 0) = false) /\
  ((forall k, JS.isNaN (getMetal (metalConcentrations_of sample) k) = false) ->
   nonnegative (metalConcentrations_of sample)).
Proof.
  intros Hin.
  assert (Hrange : Upload.rangeErrors sample = []).
  { unfold Upload.validateData in Hin.
    destruct (List.length data =? 0)%nat; [destruct Hin|].
    pose proof (validateData_loop Row requiredFieldErrors buildSample data 0 [] []) as H.
    cbv zeta in H.
    destruct (Upload.forEach_from _ 0 data ([], [])) as [errors validSamples].
    cbn [fst snd Upload.samples] in *. destruct H as (_ & _ & H).
    destruct (H sample Hin) as [[]|Hr]. exact Hr. }
  split; [exact Hrange|].
  destruct (rangeErrors_nil sample Hrange) as (Hlat & Hlon & Hc).
  split; [exact Hlat|]. split; [exact Hlon|]. split; [exact Hc|].
  intros Hnum k. apply js_not_gt_le; [reflexivity | apply Hnum | apply Hc].
Qed.

Lemma validateData_samples_in_range_witness :
  let result := Upload.validateData bool (fun _ => []) (fun _ _ => sample_S1) [true] in
  In sample_S1 (Upload.samples result) /\ nonnegative (metalConcentrations_of sample_S1).
Proof.
  cbv zeta.
  assert (Hrange : Upload.rangeErrors sample_S1 = []) by (vm_compute; reflexivity).
  assert (Hin : In sample_S1 (Upload.samples (Upload.validateData bool (fun _ => [])
                                                (fun _ _ => sample_S1) [true]))).
  { rewrite (validateData_single bool (fun _ => []) (fun _ _ => sample_S1) true eq_refl Hrange).
    left. reflexivity. }
  destruct (validateData_samples_in_range bool (fun _ => []) (fun _ _ => sample_S1)
              [true] sample_S1 Hin) as (_ & _ & _ & _ & Hnn).
  split; [exact Hin|]. apply Hnn. intros []; vm_compute; reflexivity.
Defined.

(** X17.  The range checks let NaN through: a row with every required
    field present whose coordinates and concentrations all read as NaN (as
    [parseFloat] gives for text that is not a number) is accepted as a
    valid sample. *)
Theorem validateData_accepts_NaN (Row : Type)
    (requiredFieldErrors : Row -> list string) (buildSample : Row -> nat -> SampleData)
    (row : Row) :
  requiredFieldErrors row = [] ->
  (forall field,
     In field ["latitude"; "longitude"; "lead"; "cadmium"; "arsenic"; "chromium"] ->
     readNumber (buildSample row 0) field = JS.NaN) ->
  Upload.validateData Row requiredFieldErrors buildSample [row]
  = {| Upload.valid := true; Upload.errors := [];
       Upload.samples := [buildSample row 0] |}.
Proof.
  intros Hreq Hnan. apply validateData_single; [exact Hreq|].
  unfold Upload.rangeErrors.
  rewrite (Hnan "latitude"), (Hnan "longitude"), (Hnan "lead"), (Hnan "cadmium"),
    (Hnan "arsenic"), (Hnan "chromium") by (simpl; tauto).
  reflexivity.
Qed.

Lemma validateData_accepts_NaN_witness :
  let nan_sample : SampleData :=
    <["sampleId" := VString "S9"]>
      (<["latitude" := VNumber JS.NaN]> (<["longitude" := VNumber JS.NaN]>
        (<["lead" := VNumber JS.NaN]> (<["cadmium" := VNumber JS.NaN]>
          (<["arsenic" := VNumber JS.NaN]> (<["chromium" := VNumber JS.NaN]> ∅)))))) in
  Upload.valid (Upload.validateData bool (fun _ => []) (fun _ _ => nan_sample) [true]) = true.
Proof.
  cbv zeta.
  rewrite (validateData_accepts_NaN bool (fun _ => []) (fun _ _ => _) true eq_refl).
  - reflexivity.
  - intros field Hf. simpl in Hf.
    destruct Hf as [<-|[<-|[<-|[<-|[<-|[<-|[]]]]]]]; vm_compute; reflexivity.
Defined.

(** X18.  A file with fewer than two non-blank lines (empty, blank, or a
    header line alone) parses to no rows and is rejected with the single
    message "File is empty or invalid". *)
Theorem header_only_file_rejected (trim : string -> string)
    (requiredFieldErrors : gmap string string -> list string)
    (buildSample : gmap string string -> nat -> SampleData) (text : string) :
  List.length (Upload.nonBlankLines trim text) < 2 ->
  Upload.parseCSV trim text = [] /\
  Upload.validateData _ requiredFieldErrors buildSample (Upload.parseCSV trim text)
  = {| Upload.valid := false;
       Upload.errors := ["File is empty or invalid"];
       Upload.samples := [] |}.
Proof.
  intros H. assert (E : Upload.parseCSV trim text = []).
  { unfold Upload.parseCSV. apply Nat.ltb_lt in H. rewrite H. reflexivity. }
  rewrite E. split; reflexivity.
Qed.

Lemma header_only_file_rejected_witness :
  let text := "Sample ID,Latitude,Longitude,Lead,Cadmium,Arsenic,Chromium" in
  List.length (Upload.nonBlankLines trim_ascii text) < 2 /\
  Upload.parseCSV trim_ascii text = [].
Proof.
  cbv zeta.
  assert (H : List.length (Upload.nonBlankLines trim_ascii
                "Sample ID,Latitude,Longitude,Lead,Cadmium,Arsenic,Chromium") < 2)
    by (vm_compute; lia).
  split; [exact H|].
  exact (proj1 (header_only_file_rejected trim_ascii (fun _ => []) (fun _ _ => ∅) _ H)).
Defined.

(** ** The dashboard and the report *)

Section Consumers.

Local Open Scope list_scope.

(** A count below 2^53 is above 0 as a number exactly when it is not 0. *)
Lemma of_nat_gt_zero (n : nat) :
  (Z.of_nat n < 2 ^ 53)%Z -> JS.gt (JS.of_nat n) (JS.lit 0 0) = (0 <? n)%nat.
Proof.
  intros H. destruct n as [|n]; [reflexivity|].
  unfold JS.of_nat. destruct (of_Z_canonical (Z.of_nat (S n))) as (m & e & -> & _); [lia|].
  reflexivity.
Qed.

Lemma filter_length_le {A : Type} (p : A -> bool) (l : list A) :
  List.length (List.filter p l) <= List.length l.
Proof.
  induction l as [|x l IH]; [reflexivity|].
  cbn [List.filter]. destruct (p x); cbn [List.length]; lia.
Qed.

Lemma filter_none {A : Type} (p : A -> bool) (l : list A) :
  List.length (List.filter p l) = 0 -> forall x, In x l -> p x = false.
Proof.
  induction l as [|y l IH]; intros H x Hx; [destruct Hx|].
  cbn [List.filter] in H. destruct (p y) eqn:E; [discriminate H|].
  destruct Hx as [<-|Hx]; [exact E | now apply IH].
Qed.

Lemma filter_map_length {A B : Type} (f : A -> B) (p : B -> bool) (l : list A) :
  List.length (List.filter p (List.map f l))
  = List.length (List.filter (fun x => p (f x)) l).
Proof.
  induction l as [|x l IH]; [reflexivity|].
  cbn [List.map List.filter]. destruct (p (f x)); cbn [List.length]; rewrite IH; reflexivity.
Qed.

Lemma reduce_map {A B : Type} (f : A -> B) (g : B -> JS.number) (l : list A) :
  forall acc,
    fold_left (fun sum r => (sum + g r)%js) (List.map f l) acc
    = fold_left (fun sum r => (sum + g (f r))%js) l acc.
Proof.
  induction l as [|x l IH]; intros acc; [reflexivity|].
  cbn [List.map fold_left]. apply IH.
Qed.

Lemma tier_count_results (t : Status) (results : list Result.t) :
  tier_count t (List.map Result.indices results)
  = List.length (List.filter (fun r => Status_eqb (status (Result.indices r)) t) results).
Proof. unfold tier_count. apply filter_map_length. Qed.

Lemma tier_count_le (t : Status) (results : list PollutionIndices) :
  tier_count t results <= List.length results.
Proof. apply filter_length_le. Qed.

End Consumers.

(** X19.  For at least one result (and fewer than 2^53) the dashboard
    computes its data; the pie chart has a slice for each tier that has
    results and for no other, in the order Safe, Moderate, High Risk, and
    the slice values add up to the number of results. *)
Theorem StatsDashboard_pie (results : list Result.t) :
  (0 < Z.of_nat (List.length results) < 2 ^ 53)%Z ->
  exists data,
    Dashboard.StatsDashboard results = Some (JS.Return data) /\
    Summary.total (Dashboard.stats data) = List.length results /\
    Dashboard.pieData data
    = List.filter (fun item => (0 <? Dashboard.value item)%nat)
        [ {| Dashboard.name := "Safe";
             Dashboard.value := tier_count safe (List.map Result.indices results);
             Dashboard.color := Dashboard.COLORS safe |};
          {| Dashboard.name := "Moderate";
             Dashboard.value := tier_count moderate (List.map Result.indices results);
             Dashboard.color := Dashboard.COLORS moderate |};
          {| Dashboard.name := "High Risk";
             Dashboard.value := tier_count danger (List.map Result.indices results);
             Dashboard.color := Dashboard.COLORS danger |} ] /\
    list_sum (List.map Dashboard.value (Dashboard.pieData data)) = List.length results /\
    Dashboard.pieData data <> [].
Proof.
  intros H. unfold Dashboard.StatsDashboard.
  destruct results as [|r0 results0] eqn:Eres; [cbn in H; lia|]. rewrite <- Eres in *.
  assert (Hlen : (List.length results =? 0)%nat = false)
    by (rewrite Eres; reflexivity).
  rewrite Hlen. unfold generateSummaryStats. eexists. split; [reflexivity|].
  cbn [Dashboard.stats Dashboard.pieData Summary.total Summary.distribution
       Summary.safe Summary.moderate Summary.danger Summary.count].
  rewrite List.length_map. split; [reflexivity|].
  fold (tier_count safe (List.map Result.indices results))
       (tier_count moderate (List.map Result.indices results))
       (tier_count danger (List.map Result.indices results)).
  pose proof (tier_counts_total (List.map Result.indices results)) as Hsum.
  rewrite List.length_map in Hsum.
  pose proof (tier_count_le safe (List.map Result.indices results)) as Hs.
  pose proof (tier_count_le moderate (List.map Result.indices results)) as Hm.
  pose proof (tier_count_le danger (List.map Result.indices results)) as Hd.
  rewrite List.length_map in Hs, Hm, Hd.
  set (ns := tier_count safe (List.map Result.indices results)) in *.
  set (nm := tier_count moderate (List.map Result.indices results)) in *.
  set (nd := tier_count danger (List.map Result.indices results)) in *.
  cbn [List.filter Dashboard.value].
  rewrite !of_nat_gt_zero by lia.
  split; [reflexivity|].
  assert (Hpos : 0 < List.length results) by lia.
  destruct ns as [|ns'], nm as [|nm'], nd as [|nd'];
    cbn [Nat.ltb Nat.leb List.map Dashboard.value list_sum fold_right] in *;
    (split; [lia | try discriminate]).
  lia.
Qed.

Lemma StatsDashboard_pie_witness :
  let results :=
    [ {| Result.sampleId := "S1"; Result.latitude := JS.lit 285 1;
         Result.longitude := JS.lit 772 1;
         Result.lead := JS.lit 5 2; Result.cadmium := JS.lit 1 2;
         Result.arsenic := JS.lit 2 2; Result.chromium := JS.lit 3 2;
         Result.indices := calculatePollutionIndices end_to_end_example |} ] in
  (0 < Z.of_nat (List.length results) < 2 ^ 53)%Z /\
  exists data,
    Dashboard.StatsDashboard results = Some (JS.Return data) /\
    List.map Dashboard.name (Dashboard.pieData data) = ["High Risk"].
Proof.
  cbv zeta.
  set (results := [ {| Result.sampleId := "S1"; Result.latitude := JS.lit 285 1;
         Result.longitude := JS.lit 772 1;
         Result.lead := JS.lit 5 2; Result.cadmium := JS.lit 1 2;
         Result.arsenic := JS.lit 2 2; Result.chromium := JS.lit 3 2;
         Result.indices := calculatePollutionIndices end_to_end_example |} ]).
  assert (H : (0 < Z.of_nat (List.length results) < 2 ^ 53)%Z) by (vm_compute; split; reflexivity).
  destruct (StatsDashboard_pie results H) as (data & Hd & _ & Hpie & _).
  split; [exact H|]. exists data. split; [exact Hd|].
  rewrite Hpie. vm_compute. reflexivity.
Defined.

(** X20.  The dashboard's exceedance thresholds are the standards of the
    calculation module.  When the results carry the indices computed from
    their own concentrations and the dashboard counts no sample above any
    standard, the stored HPI of every result is 0. *)
Theorem StatsDashboard_no_exceedance (results : list Result.t) (data : Dashboard.Data) :
  (forall r, In r results ->
     Result.indices r = calculatePollutionIndices (Result.concentrations r)) ->
  Dashboard.StatsDashboard results = Some (JS.Return data) ->
  List.map Dashboard.standard (Dashboard.metalDistributionData data)
  = List.map STANDARDS Spec.metals_in_order /\
  ((forall entry, In entry (Dashboard.metalDistributionData data) ->
      Dashboard.exceeding entry = 0) ->
   forall r, In r results -> hpi (Result.indices r) = JS.pos_zero).
Proof.
  intros Hind Hdash. unfold Dashboard.StatsDashboard in Hdash.
  destruct (List.length results =? 0)%nat; [discriminate Hdash|].
  unfold generateSummaryStats in Hdash. injection Hdash as <-.
  cbn [Dashboard.metalDistributionData]. split; [reflexivity|].
  intros Hnone r Hr. rewrite (Hind r Hr).
  assert (Hhpi : calculateHPI (Result.concentrations r) = JS.pos_zero).
  { apply calculateHPI_none_above. intros k.
    destruct k; cbn [getMetal Result.concentrations lead cadmium arsenic chromium STANDARDS].
    - refine (filter_none _ results (Hnone (Dashboard.metalEntry "Lead" _ _ results) _) r Hr).
      simpl; tauto.
    - refine (filter_none _ results (Hnone (Dashboard.metalEntry "Cadmium" _ _ results) _) r Hr).
      simpl; tauto.
    - refine (filter_none _ results (Hnone (Dashboard.metalEntry "Arsenic" _ _ results) _) r Hr).
      simpl; tauto.
    - refine (filter_none _ results (Hnone (Dashboard.metalEntry "Chromium" _ _ results) _) r Hr).
      simpl; tauto. }
  unfold calculatePollutionIndices. rewrite Hhpi.
  destruct (getPollutionStatus _ _ _). reflexivity.
Qed.

Lemma StatsDashboard_no_exceedance_witness :
  let results :=
    [ {| Result.sampleId := "S1"; Result.latitude := JS.lit 285 1;
         Result.longitude := JS.lit 772 1;
         Result.lead := JS.lit 5 3; Result.cadmium := JS.lit 15 4;
         Result.arsenic := JS.lit 5 3; Result.chromium := JS.lit 25 3;
         Result.indices := calculatePollutionIndices half_the_standards |} ] in
  (forall r, In r results ->
     Result.indices r = calculatePollutionIndices (Result.concentrations r)) /\
  exists data,
    Dashboard.StatsDashboard results = Some (JS.Return data) /\
    forall r, In r results -> hpi (Result.indices r) = JS.pos_zero.
Proof.
  cbv zeta.
  set (results := [ {| Result.sampleId := "S1"; Result.latitude := JS.lit 285 1;
         Result.longitude := JS.lit 772 1;
         Result.lead := JS.lit 5 3; Result.cadmium := JS.lit 15 4;
         Result.arsenic := JS.lit 5 3; Result.chromium := JS.lit 25 3;
         Result.indices := calculatePollutionIndices half_the_standards |} ]).
  assert (Hind : forall r, In r results ->
            Result.indices r = calculatePollutionIndices (Result.concentrations r)).
  { intros r [<-|[]]. reflexivity. }
  split; [exact Hind|].
  eexists. split.
  { unfold Dashboard.StatsDashboard, generateSummaryStats.
    cbn [results List.length Nat.eqb]. reflexivity. }
  refine (proj2 (StatsDashboard_no_exceedance results _ Hind _) _).
  { unfold Dashboard.StatsDashboard, generateSummaryStats.
    cbn [results List.length Nat.eqb]. reflexivity. }
  cbn [Dashboard.metalDistributionData].
  intros entry [<-|[<-|[<-|[<-|[]]]]];
    unfold Dashboard.metalEntry; cbn [Dashboard.exceeding]; vm_compute; reflexivity.
Defined.

Section ReportFigures.

Local Open Scope list_scope.

Lemma firstn_In {A : Type} (n : nat) (l : list A) (x : A) :
  In x (List.firstn n l) -> In x l.
Proof.
  revert n. induction l as [|y l IH]; intros [|n] H; cbn in H; try destruct H.
  - subst. left. reflexivity.
  - right. apply (IH n). assumption.
Qed.

End ReportFigures.

(** X21.  The figures of the printed report are those of the dashboard's
    summary: the same total and tier counts, and averages and percentages
    whose printed decimals read back as the numbers [generateSummaryStats]
    stores. *)
Theorem report_agrees_with_summary
    (sort : (Result.t -> Result.t -> JS.number) -> list Result.t -> list Result.t)
    (results : list Result.t) :
  let f := Report.figures sort results in
  exists s,
    generateSummaryStats (List.map Result.indices results) = JS.Return s /\
    Report.totalSamples f = Summary.total s /\
    Report.safeSamples f = Summary.count (Summary.safe (Summary.distribution s)) /\
    Report.moderateSamples f = Summary.count (Summary.moderate (Summary.distribution s)) /\
    Report.dangerSamples f = Summary.count (Summary.danger (Summary.distribution s)) /\
    JS.Number (Report.avgHPI f) = Summary.hpi (Summary.averages s) /\
    JS.Number (Report.avgMI f) = Summary.mi (Summary.averages s) /\
    JS.Number (Report.avgCd f) = Summary.cd (Summary.averages s) /\
    JS.Number (Report.safePercent f)
    = Summary.percentage (Summary.safe (Summary.distribution s)) /\
    JS.Number (Report.moderatePercent f)
    = Summary.percentage (Summary.moderate (Summary.distribution s)) /\
    JS.Number (Report.dangerPercent f)
    = Summary.percentage (Summary.danger (Summary.distribution s)).
Proof.
  cbv zeta. unfold generateSummaryStats, Report.figures. eexists. split; [reflexivity|].
  cbn [Report.totalSamples Report.safeSamples Report.moderateSamples Report.dangerSamples
       Report.avgHPI Report.avgMI Report.avgCd
       Report.safePercent Report.moderatePercent Report.dangerPercent
       Summary.total Summary.distribution Summary.averages
       Summary.safe Summary.moderate Summary.danger Summary.count Summary.percentage
       Summary.hpi Summary.mi Summary.cd].
  rewrite !filter_map_length, !reduce_map, List.length_map.
  repeat split.
Qed.

(** X22.  The report's critical sites are results of the danger tier, at
    most five of them: as many as there are danger results when these are
    five or fewer.  ([sort] returns a permutation of its argument.) *)
Theorem report_critical_samples
    (sort : (Result.t -> Result.t -> JS.number) -> list Result.t -> list Result.t)
    (results : list Result.t) :
  (forall compare l, Permutation (sort compare l) l) ->
  let f := Report.figures sort results in
  List.length (Report.criticalSamples f) = Nat.min 5 (Report.dangerSamples f) /\
  forall r, In r (Report.criticalSamples f) ->
    In r results /\ status (Result.indices r) = danger.
Proof.
  intros Hsort. cbv zeta. unfold Report.figures.
  cbn [Report.criticalSamples Report.dangerSamples].
  set (dangerous := List.filter
         (fun r => Status_eqb (status (Result.indices r)) danger) results).
  set (compare := fun a b : Result.t =>
         (hpi (Result.indices b) - hpi (Result.indices a))%js).
  split.
  - rewrite List.length_firstn, (Permutation_length (Hsort compare dangerous)). reflexivity.
  - intros r Hr. apply firstn_In in Hr.
    apply (Permutation_in _ (Hsort compare dangerous)) in Hr.
    unfold dangerous in Hr. apply List.filter_In in Hr as [Hin Hst].
    split; [exact Hin|]. destruct (status (Result.indices r)); try discriminate Hst.
    reflexivity.
Qed.

Lemma report_critical_samples_witness :
  let keep : (Result.t -> Result.t -> JS.number) -> list Result.t -> list Result.t :=
    fun _ l => l in
  let results :=
    [ {| Result.sampleId := "S1"; Result.latitude := JS.lit 285 1;
         Result.longitude := JS.lit 772 1;
         Result.lead := JS.lit 5 2; Result.cadmium := JS.lit 1 2;
         Result.arsenic := JS.lit 2 2; Result.chromium := JS.lit 3 2;
         Result.indices := calculatePollutionIndices end_to_end_example |};
      {| Result.sampleId := "S2"; Result.latitude := JS.lit 286 1;
         Result.longitude := JS.lit 773 1;
         Result.lead := JS.lit 5 3; Result.cadmium := JS.lit 15 4;
         Result.arsenic := JS.lit 5 3; Result.chromium := JS.lit 25 3;
         Result.indices := calculatePollutionIndices half_the_standards |} ] in
  (forall compare l, Permutation (keep compare l) l) /\
  List.length (Report.criticalSamples (Report.figures keep results)) = 1.
Proof.
  cbv zeta.
  assert (H : forall (compare : Result.t -> Result.t -> JS.number) (l : list Result.t),
             Permutation ((fun _ l => l) compare l) l) by (intros; apply Permutation_refl).
  split; [exact H|].
  rewrite (proj1 (report_critical_samples (fun _ l => l) _ H)). vm_compute. reflexivity.
Defined.
